(** * Governance proposal form: wallet glue, mock submission and form state

    A shallow embedding of the TypeScript sources

      - [src/utils/proposals.ts]  (the mock submission path),
      - [src/utils/web3.ts]       (wallet connection, Governor [propose],
                                   token [balanceOf]),
      - [components/ProposalForm] (the React form: [handleChange],
                                   [handleSubmit] and the constraint
                                   attributes of its inputs),

    followed by the properties the specification states about them.

    Asynchronous functions are programs of one monad, [Async]: it reads
    the behaviour of the outside world (wallet, chain, console, timer),
    threads the component state, raises and catches JavaScript
    exceptions and records every external effect in a trace. *)

From Stdlib Require Import String Ascii ZArith List Bool Lia.
From Stdlib Require DecimalString HexadecimalString DecimalPos.
From ExtLib Require Import Structures.Monad Structures.MonadState
  Structures.MonadExc.
Import ListNotations.
Import MonadNotation.
Local Open Scope string_scope.
Local Open Scope Z_scope.
Local Open Scope monad_scope.

(* ===================================================================== *)
(** * JavaScript values used by the sources                              *)
(* ===================================================================== *)

Module JS.

(** The [number]s that reach [votingPeriod]: the initial [7] and the
    results of [parseInt], i.e. an integer or [NaN].  ([parseInt]
    rounds magnitudes above 2^53 to the nearest double; the integer is
    kept exact here, which changes no comparison with 1 and 30.)  The
    model is the program's number for [NaN] and for the safe integers,
    up to 2^53 - 1 in magnitude; a property about the stored value
    itself is stated for those. *)
Inductive number : Type :=
| NaN
| Num (z : Z).

(** A thrown value.  The sources look at three things only:
    [e instanceof Error], [e.message] and [e.code]. *)
Inductive Thrown : Type :=
| ErrorObject (message : string) (code : option Z)  (* instanceof Error *)
| OtherValue (code : option Z)     (* any other non-null value        *)
| Nullish.                         (* [null] or [undefined]           *)

Definition TypeError (msg : string) : Thrown := ErrorObject msg None.

(** [e instanceof Error ? e.message : fallback] *)
Definition messageOr (fallback : string) (e : Thrown) : string :=
  match e with
  | ErrorObject m _ => m
  | _ => fallback
  end.

(** [a || fallback] on an optional string: [undefined] and [''] are
    falsy. *)
Definition orElse (a : option string) (fallback : string) : string :=
  match a with
  | Some s => if String.eqb s "" then fallback else s
  | None => fallback
  end.

(** [s.substring(start, end)]: both indices are clamped to the length
    and swapped when [start > end]. *)
Definition substring (s : string) (start stop : nat) : string :=
  let lo := Nat.min start stop in
  let hi := Nat.max start stop in
  String.substring lo (hi - lo) s.

(** [s.slice(0, n)] for a non-negative [n]. *)
Definition slice0 (s : string) (n : nat) : string :=
  String.substring 0 n s.

(** [n.toString()] for an integer [n] (below 10^21 in magnitude). *)
Definition intToString (z : Z) : string :=
  DecimalString.NilZero.string_of_int (Z.to_int z).

(** [n.toString(16)] for a non-negative integer. *)
Definition toString16 (z : Z) : string :=
  HexadecimalString.NilZero.string_of_uint (N.to_hex_uint (Z.to_N z)).

(** A [number] inside a template literal (JavaScript switches to
    exponent form from 10^21 on; all digits are printed here). *)
Definition numberToString (n : number) : string :=
  match n with
  | NaN => "NaN"
  | Num z => intToString z
  end.

(** ** [parseInt(string)] without a radix argument

    Leading white space is skipped (the ASCII white space: tab, line
    feed, vertical tab, form feed, carriage return, space), then an
    optional sign and an optional [0x] prefix are read, then the longest
    run of digits of the radix; no digit gives [NaN]. *)

Definition isWhiteSpace (c : ascii) : bool :=
  let n := nat_of_ascii c in
  ((9 <=? n)%nat && (n <=? 13)%nat) || (n =? 32)%nat.

Fixpoint trimStart (s : string) : string :=
  match s with
  | String c s' => if isWhiteSpace c then trimStart s' else s
  | EmptyString => s
  end.

Definition digitValue (c : ascii) : option Z :=
  let n := Z.of_nat (nat_of_ascii c) in
  if (48 <=? n) && (n <=? 57) then Some (n - 48)
  else if (97 <=? n) && (n <=? 122) then Some (n - 87)
  else if (65 <=? n) && (n <=? 90) then Some (n - 55)
  else None.

(** The longest prefix of digits of the radix, read left to right;
    [None] when that prefix is empty. *)
Fixpoint parseDigits (radix : Z) (s : string) (acc : option Z) : option Z :=
  match s with
  | EmptyString => acc
  | String c s' =>
      match digitValue c with
      | Some d =>
          if d <? radix
          then parseDigits radix s'
                 (Some (match acc with Some a => a * radix + d | None => d end))
          else acc
      | None => acc
      end
  end.

Definition parseInt (input : string) : number :=
  let s := trimStart input in
  let '(sign, s) :=
    match s with
    | String "-" s' => (-1, s')
    | String "+" s' => (1, s')
    | _ => (1, s)
    end in
  let '(radix, s) :=
    match s with
    | String "0" (String "x" s') => (16, s')
    | String "0" (String "X" s') => (16, s')
    | _ => (10, s)
    end in
  match parseDigits radix s None with
  | Some v => Num (sign * v)
  | None => NaN
  end.

End JS.
Import JS.

(* ===================================================================== *)
(** * Data model                                                         *)
(* ===================================================================== *)

(** [interface ProposalData].  [proposalType] is declared as the union
    ['general' | 'treasury' | 'parameter']; at run time it holds the
    string the [<select>] reports. *)
Record ProposalData : Type := mkProposalData {
  title : string;
  description : string;
  votingPeriod : number;
  proposalType : string
}.

(** Handles of the wallet library. *)
Record Signer : Type := mkSigner { signerId : nat }.
Record Tx : Type := mkTx { tx_hash : string }.
Record Receipt : Type := mkReceipt { receipt_hash : string }.

(** An element of [params] of a wallet request. *)
Inductive RequestParam : Type :=
| ChainIdParam (chainId : string).

(** What [console.log] is given after its label. *)
Inductive LogArg : Type :=
| LogData (data : ProposalData)
| LogParameters (targets : list string) (values : list Z)
    (calldatas : list string) (description : string)
| LogText (s : string)
| LogReceipt (r : option Receipt).

(** The external effects of the sources, in the order they happen. *)
Inductive Effect : Type :=
| ConsoleLog (label : string) (arg : LogArg)
| ConsoleError (label : string) (e : Thrown)
| SetTimeout (ms : Z)
| MathRandom
| PreventDefault
| OnSubmitProp (data : ProposalData)
| EthereumRequest (method : string) (params : list RequestParam)
| GetNetwork
| GetSigner
| GetAddress (s : Signer)
| Propose (contract : string) (runner : Signer) (targets : list string)
    (values : list Z) (calldatas : list string) (description : string)
| TxWait (tx : Tx)
| BalanceOf (contract : string) (owner : string).

Definition Trace : Type := list Effect.

(** How a call ends: with a value, or by throwing (a rejected promise is
    a throw at its [await]). *)
Inductive Completion (A : Type) : Type :=
| Normal (a : A)
| Abrupt (e : Thrown).
Arguments Normal {A} a.
Arguments Abrupt {A} e.

(** The outside world: what each external operation answers.  Every
    handler of the sources requests an operation with given arguments at
    most once, so one answer per operation and arguments describes any
    run. *)
Record Env : Type := mkEnv {
  (** [typeof window !== 'undefined' && window.ethereum] *)
  window_ethereum : bool;
  (** [window.ethereum.request({ method, params })] *)
  ethereum_request : string -> list RequestParam -> Completion unit;
  (** [(await provider.getNetwork()).chainId] *)
  provider_getNetwork : Completion Z;
  provider_getSigner : Completion Signer;
  signer_getAddress : Signer -> Completion string;
  (** [contract.propose(...)] of a contract at an address, run by a
      signer *)
  contract_propose :
    string -> Signer -> list string -> list Z -> list string -> string ->
    Completion Tx;
  (** [tx.wait()]: ethers types it [null | TransactionReceipt] *)
  tx_wait : Tx -> Completion (option Receipt);
  (** [contract.balanceOf(owner)] of a contract at an address *)
  contract_balanceOf : string -> string -> Completion Z;
  (** [Math.random().toString(36)] *)
  Math_random_toString36 : string
}.

(* ===================================================================== *)
(** * The monad of asynchronous handlers                                 *)
(* ===================================================================== *)

Definition Async (S A : Type) : Type :=
  Env -> S -> Trace -> Completion A * S * Trace.

Definition completion {S A} (r : Completion A * S * Trace) : Completion A :=
  fst (fst r).
Definition stateOf {S A} (r : Completion A * S * Trace) : S := snd (fst r).
Definition traceOf {S A} (r : Completion A * S * Trace) : Trace := snd r.

#[global] Instance Monad_Async {S} : Monad (Async S) := {|
  ret := fun _ a => fun _ s t => (Normal a, s, t);
  bind := fun _ _ m k => fun env s t =>
    match m env s t with
    | (Normal a, s', t') => k a env s' t'
    | (Abrupt e, s', t') => (Abrupt e, s', t')
    end
|}.

(** [throw] and [try { m } catch (e) { h e }] *)
#[global] Instance Exc_Async {S} : MonadExc Thrown (Async S) := {|
  raise := fun _ e => fun _ s t => (Abrupt e, s, t);
  catch := fun _ m h => fun env s t =>
    match m env s t with
    | (Normal a, s', t') => (Normal a, s', t')
    | (Abrupt e, s', t') => h e env s' t'
    end
|}.

#[global] Instance State_Async {S} : MonadState S (Async S) := {|
  get := fun _ s t => (Normal s, s, t);
  put := fun s' => fun _ _ t => (Normal tt, s', t)
|}.

(** [try { m } finally { f }]: [f] runs either way and the completion of
    [m] stands, unless [f] itself throws. *)
Definition finally {S A} (m : Async S A) (f : Async S unit) : Async S A :=
  fun env s t =>
    match m env s t with
    | (c, s', t') =>
        match f env s' t' with
        | (Normal _, s2, t2) => (c, s2, t2)
        | (Abrupt e, s2, t2) => (Abrupt e, s2, t2)
        end
    end.

(** An external operation: it is recorded, then completes as the world
    says. *)
Definition perform {S A} (ef : Effect) (answer : Env -> Completion A)
  : Async S A :=
  fun env s t => (answer env, s, (t ++ [ef])%list).

(** An external operation that cannot throw. *)
Definition emit {S} (ef : Effect) : Async S unit :=
  perform ef (fun _ => Normal tt).

Definition console_log {S} (label : string) (arg : LogArg) : Async S unit :=
  emit (ConsoleLog label arg).

Definition console_error {S} (label : string) (e : Thrown) : Async S unit :=
  emit (ConsoleError label e).

(* ===================================================================== *)
(** * src/utils/proposals.ts                                             *)
(* ===================================================================== *)

Module Proposals.

(** [interface SubmissionResult]; [proposalId?] is optional. *)
Record SubmissionResult : Type := mkSubmissionResult {
  success : bool;
  message : string;
  proposalId : option string
}.

(** The body of the [try] block of [submitProposal]. *)
Definition submitProposal_try {S} (data : ProposalData)
  : Async S SubmissionResult :=
  console_log "Submitting proposal:" (LogData data) ;;
  (* await new Promise(resolve => setTimeout(resolve, 1500)) *)
  emit (SetTimeout 1500) ;;
  r <- perform MathRandom (fun env => Normal (Math_random_toString36 env)) ;;
  let mockProposalId := "prop_" ++ JS.substring r 2 10 in
  ret {| success := true;
         message := "Proposal submitted successfully";
         proposalId := Some mockProposalId |}.

(** The [catch] block of [submitProposal]. *)
Definition submitProposal_catch {S} (error : Thrown)
  : Async S SubmissionResult :=
  console_error "Error submitting proposal:" error ;;
  ret {| success := false;
         message := messageOr "Failed to submit proposal" error;
         proposalId := None |}.

Definition submitProposal {S} (data : ProposalData)
  : Async S SubmissionResult :=
  catch (submitProposal_try data) submitProposal_catch.

End Proposals.

(* ===================================================================== *)
(** * The parts of ethers (v6) that web3.ts calls as pure functions      *)
(* ===================================================================== *)

Module Ethers.

Definition isDigit (c : ascii) : bool :=
  let n := nat_of_ascii c in ((48 <=? n)%nat && (n <=? 57)%nat).

(** Splits a string into its longest prefix of decimal digits and the
    rest. *)
Fixpoint spanDigits (s : string) : string * string :=
  match s with
  | String c s' =>
      if isDigit c
      then let '(ds, rest) := spanDigits s' in (String c ds, rest)
      else (EmptyString, s)
  | EmptyString => (EmptyString, EmptyString)
  end.

(** The value of a string of decimal digits. *)
Definition digitsValue (s : string) : Z :=
  match parseDigits 10 s None with
  | Some v => v
  | None => 0
  end.

Fixpoint allZeros (s : string) : bool :=
  match s with
  | String c s' => Ascii.eqb c "0" && allZeros s'
  | EmptyString => true
  end.

Fixpoint zeros (n : nat) : string :=
  match n with
  | O => EmptyString
  | S n' => String "0" (zeros n')
  end.

Definition invalidFixedNumber : Thrown :=
  ErrorObject "invalid FixedNumber string value" None.
Definition tooManyDecimals : Thrown :=
  ErrorObject "too many decimals for format" None.
Definition overflow : Thrown :=
  ErrorObject "overflow" None.

(** [ethers.parseEther(value)], that is [parseUnits(value, 18)]: the
    string is an optional minus sign, digits, an optional point and
    digits, with at least one digit in all; decimals after the 18th
    must be zeros, and the result must fit 512 signed bits. *)
Definition parseEther (value : string) : Completion Z :=
  let '(negative, s) :=
    match value with
    | String "-" s' => (true, s')
    | _ => (false, value)
    end in
  let '(whole, s) := spanDigits s in
  let s := match s with String "." s' => s' | _ => s end in
  let '(decimal, s) := spanDigits s in
  if negb (String.eqb s "") then Abrupt invalidFixedNumber
  else if (String.length whole + String.length decimal =? 0)%nat
  then Abrupt invalidFixedNumber
  else
    let padded := decimal ++ zeros (18 - String.length decimal) in
    if negb (allZeros (String.substring 18 (String.length padded - 18) padded))
    then Abrupt tooManyDecimals
    else
      let magnitude :=
        digitsValue whole * 10 ^ 18 + digitsValue (String.substring 0 18 padded) in
      let v := if negative then - magnitude else magnitude in
      if (- 2 ^ 511 <=? v) && (v <? 2 ^ 511) then Normal v
      else Abrupt overflow.

Fixpoint stripTrailingZeros (rev_digits : list ascii) : list ascii :=
  match rev_digits with
  | c :: rest =>
      if Ascii.eqb c "0"
      then match rest with
           | [] => rev_digits
           | _ => stripTrailingZeros rest
           end
      else rev_digits
  | [] => []
  end.

(** [ethers.formatEther(value)], that is [formatUnits(value, 18)]: the
    integer part, a point, and the 18 decimals without their trailing
    zeros (at least one decimal is kept). *)
Definition formatEther (value : Z) : string :=
  let negative := value <? 0 in
  let magnitude := Z.abs value in
  let whole := intToString (magnitude / 10 ^ 18) in
  let frac := intToString (magnitude mod 10 ^ 18) in
  let frac18 := zeros (18 - String.length frac) ++ frac in
  let decimals :=
    string_of_list_ascii
      (rev (stripTrailingZeros (rev (list_ascii_of_string frac18)))) in
  (if negative then "-" else "") ++ whole ++ "." ++ decimals.

End Ethers.

(* ===================================================================== *)
(** * src/utils/web3.ts                                                  *)
(* ===================================================================== *)

Module Web3.

(** Contract addresses from the deployment. *)
Definition GOVERNOR_CONTRACT_ADDRESS : string :=
  "0xceb8CB84415bb7712f1B34f628f00d805cd6740B".
Definition GOVERNANCE_TOKEN_ADDRESS : string :=
  "0xc95B4096Be9C48A1C63c9CCa171CfC16069779D0".
Definition TIMELOCK_CONTRACT_ADDRESS : string :=
  "0xF269cFe75b406B074a93cDEa74B7338D6257F9C9".

(** Network config. *)
Record Network : Type := mkNetwork { chainId : Z; name : string }.
Definition NETWORK : Network :=
  {| chainId := 11155111; (* Sepolia *)
     name := "Sepolia Testnet" |}.

(** The objects the three functions return.  An object literal that
    leaves a property out has [None] there. *)
Record Result : Type := mkResult {
  success : bool;
  address : option string;
  signer : option Signer;
  proposalId : option string;
  transactionHash : option string;
  balance : option string;
  error : option string
}.

(** [{ success: false, error }] *)
Definition failure (msg : string) : Result :=
  {| success := false; address := None; signer := None;
     proposalId := None; transactionHash := None; balance := None;
     error := Some msg |}.

(** The argument of [submitGovernanceProposal]: the four fields of a
    proposal and three optional arrays. *)
Record GovernanceProposalData : Type := mkGovernanceProposalData {
  fields : ProposalData;
  targets : option (list string);
  values : option (list string);
  calldatas : option (list string)
}.

(** [xs || dflt] on an optional array: every array is truthy. *)
Definition orDefault {A} (xs : option (list A)) (dflt : list A) : list A :=
  match xs with
  | Some l => l
  | None => dflt
  end.

(** [typeof window !== 'undefined' && window.ethereum] *)
Definition hasEthereum {S} : Async S bool :=
  fun env s t => (Normal (window_ethereum env), s, t).

(** A pure call that may throw. *)
Definition lift {S A} (c : Completion A) : Async S A :=
  fun _ s t => (c, s, t).

(** [xs.map(f)] for an [f] that may throw: the first throw ends it. *)
Fixpoint mapThrowing {A B} (f : A -> Completion B) (xs : list A)
  : Completion (list B) :=
  match xs with
  | [] => Normal []
  | x :: xs' =>
      match f x with
      | Normal y =>
          match mapThrowing f xs' with
          | Normal ys => Normal (y :: ys)
          | Abrupt e => Abrupt e
          end
      | Abrupt e => Abrupt e
      end
  end.

(** [switchError.code]: reading a property of [null] or [undefined]
    throws a [TypeError] (its text names [undefined]; for [null] the
    engine names [null]). *)
Definition readCode {S} (e : Thrown) : Async S (option Z) :=
  match e with
  | ErrorObject _ code => ret code
  | OtherValue code => ret code
  | Nullish =>
      raise (TypeError "Cannot read properties of undefined (reading 'code')")
  end.

Definition isCode (code : option Z) (n : Z) : bool :=
  match code with
  | Some c => c =? n
  | None => false
  end.

(** The body of the [try] block of [connectWallet]. *)
Definition connectWallet_try {S} : Async S Result :=
  (* Request account access *)
  perform (EthereumRequest "eth_requestAccounts" [])
    (fun env => ethereum_request env "eth_requestAccounts" []) ;;
  (* provider = new ethers.BrowserProvider(window.ethereum) *)
  network_chainId <- perform GetNetwork provider_getNetwork ;;
  (if negb (network_chainId =? chainId NETWORK) then
     let params := [ChainIdParam ("0x" ++ toString16 (chainId NETWORK))] in
     catch
       (perform (EthereumRequest "wallet_switchEthereumChain" params)
          (fun env => ethereum_request env "wallet_switchEthereumChain" params))
       (fun switchError =>
          code <- readCode switchError ;;
          if isCode code 4902 then
            raise (ErrorObject
                     ("Please add the " ++ name NETWORK ++ " network to your wallet")
                     None)
          else raise switchError)
   else ret tt) ;;
  signer <- perform GetSigner provider_getSigner ;;
  address <- perform (GetAddress signer) (fun env => signer_getAddress env signer) ;;
  ret {| success := true; address := Some address; signer := Some signer;
         proposalId := None; transactionHash := None; balance := None;
         error := None |}.

Definition connectWallet_catch {S} (error : Thrown) : Async S Result :=
  console_error "Error connecting to wallet:" error ;;
  ret (failure (messageOr "Failed to connect wallet" error)).

Definition connectWallet {S} : Async S Result :=
  present <- hasEthereum ;;
  if present then catch connectWallet_try connectWallet_catch
  else ret (failure "MetaMask not installed").

(** The line feed of a template literal. *)
Definition LF : string := String (ascii_of_nat 10) EmptyString.

(** The proposal description sent on chain: title and details in a
    structured format. *)
Definition formatDescription (d : ProposalData) : string :=
  "# " ++ title d ++ LF ++ LF ++ description d ++ LF ++ LF ++
  "Type: " ++ proposalType d ++ LF ++
  "Voting Period: " ++ numberToString (votingPeriod d) ++ " days".

(** The body of the [try] block of [submitGovernanceProposal]. *)
Definition submitGovernanceProposal_try {S} (signer : Signer)
    (proposalData : GovernanceProposalData) : Async S Result :=
  (* governorContract =
       new ethers.Contract(GOVERNOR_CONTRACT_ADDRESS, governorABI, signer) *)
  let description := formatDescription (fields proposalData) in
  (* Default values if not provided - use the timelock as the target *)
  let targets := orDefault (targets proposalData) [TIMELOCK_CONTRACT_ADDRESS] in
  let values := orDefault (values proposalData) ["0"] in (* 0 ETH *)
  let calldatas := orDefault (calldatas proposalData) ["0x"] in
  (* Convert values to BigInt format *)
  valueBigInts <- lift (mapThrowing Ethers.parseEther values) ;;
  console_log "Submitting proposal with parameters:"
    (LogParameters targets valueBigInts calldatas description) ;;
  (* Submit the proposal transaction *)
  tx <- perform
          (Propose GOVERNOR_CONTRACT_ADDRESS signer targets valueBigInts
             calldatas description)
          (fun env =>
             contract_propose env GOVERNOR_CONTRACT_ADDRESS signer targets
               valueBigInts calldatas description) ;;
  console_log "Proposal transaction sent:" (LogText (tx_hash tx)) ;;
  (* Wait for the transaction to be mined *)
  receipt <- perform (TxWait tx) (fun env => tx_wait env tx) ;;
  console_log "Proposal transaction confirmed:" (LogReceipt receipt) ;;
  match receipt with
  | Some r =>
      ret {| success := true; address := None; signer := None;
             proposalId := Some (receipt_hash r);
             transactionHash := Some (receipt_hash r);
             balance := None; error := None |}
  | None =>
      raise (TypeError "Cannot read properties of null (reading 'hash')")
  end.

Definition submitGovernanceProposal_catch {S} (error : Thrown)
  : Async S Result :=
  console_error "Error submitting proposal:" error ;;
  ret (failure (messageOr "Failed to submit proposal" error)).

Definition submitGovernanceProposal {S} (signer : Signer)
    (proposalData : GovernanceProposalData) : Async S Result :=
  catch (submitGovernanceProposal_try signer proposalData)
    submitGovernanceProposal_catch.

(** The body of the [try] block of [getVotingPower]. *)
Definition getVotingPower_try {S} (address : string) : Async S Result :=
  (* provider = new ethers.BrowserProvider(window.ethereum);
     tokenContract =
       new ethers.Contract(GOVERNANCE_TOKEN_ADDRESS, tokenABI, provider) *)
  balance <- perform (BalanceOf GOVERNANCE_TOKEN_ADDRESS address)
               (fun env =>
                  contract_balanceOf env GOVERNANCE_TOKEN_ADDRESS address) ;;
  ret {| success := true; address := None; signer := None;
         proposalId := None; transactionHash := None;
         balance := Some (Ethers.formatEther balance); error := None |}.

Definition getVotingPower_catch {S} (error : Thrown) : Async S Result :=
  console_error "Error getting voting power:" error ;;
  ret (failure (messageOr "Failed to get voting power" error)).

Definition getVotingPower {S} (address : string) : Async S Result :=
  present <- hasEthereum ;;
  if negb present then ret (failure "MetaMask not installed")
  else catch (getVotingPower_try address) getVotingPower_catch.

End Web3.

(* ===================================================================== *)
(** * components/ProposalForm                                            *)
(* ===================================================================== *)

Module ProposalForm.

Inductive MessageType : Type := success | error | info.

Record Message : Type := mkMessage { text : string; type : MessageType }.

(** The [useState] cells of the component. *)
Record State : Type := mkState {
  formData : ProposalData;
  isSubmitting : bool;
  message : option Message;
  walletConnected : bool;
  walletAddress : option string;
  signer : option Signer;
  votingPower : option string
}.

(** [interface ProposalFormProps]: the optional [onSubmit] callback of
    the parent, which may throw. *)
Record Props : Type := mkProps {
  onSubmit : option (ProposalData -> Completion unit)
}.

(** The initial value of [formData], also written by "Reset the form". *)
Definition initialFormData : ProposalData :=
  {| title := ""; description := ""; votingPeriod := Num 7;
     proposalType := "general" |}.

Definition initialState : State :=
  {| formData := initialFormData; isSubmitting := false; message := None;
     walletConnected := false; walletAddress := None; signer := None;
     votingPower := None |}.

(** The state setters. *)
Definition setFormData (f : ProposalData -> ProposalData) (s : State) : State :=
  {| formData := f (formData s); isSubmitting := isSubmitting s;
     message := message s; walletConnected := walletConnected s;
     walletAddress := walletAddress s; signer := signer s;
     votingPower := votingPower s |}.

Definition setIsSubmitting (b : bool) (s : State) : State :=
  {| formData := formData s; isSubmitting := b;
     message := message s; walletConnected := walletConnected s;
     walletAddress := walletAddress s; signer := signer s;
     votingPower := votingPower s |}.

Definition setMessage (m : Message) (s : State) : State :=
  {| formData := formData s; isSubmitting := isSubmitting s;
     message := Some m; walletConnected := walletConnected s;
     walletAddress := walletAddress s; signer := signer s;
     votingPower := votingPower s |}.

(** A setter called from an asynchronous handler. *)
Definition update (f : State -> State) : Async State unit :=
  s <- get ;; put (f s).

(** [e.target] of a change event. *)
Record ChangeEvent : Type := mkChangeEvent {
  target_name : string;
  target_value : string
}.

(** [{ ...prev, [name]: name === 'votingPeriod' ? parseInt(value) : value }].
    A name that is none of the four fields adds a property of its own
    and leaves the four as they are. *)
Definition assign (prev : ProposalData) (name value : string) : ProposalData :=
  if String.eqb name "votingPeriod" then
    {| title := title prev; description := description prev;
       votingPeriod := parseInt value; proposalType := proposalType prev |}
  else if String.eqb name "title" then
    {| title := value; description := description prev;
       votingPeriod := votingPeriod prev; proposalType := proposalType prev |}
  else if String.eqb name "description" then
    {| title := title prev; description := value;
       votingPeriod := votingPeriod prev; proposalType := proposalType prev |}
  else if String.eqb name "proposalType" then
    {| title := title prev; description := description prev;
       votingPeriod := votingPeriod prev; proposalType := value |}
  else prev.

Definition handleChange (e : ChangeEvent) (s : State) : State :=
  let name := target_name e in
  let value := target_value e in
  setFormData (fun prev => assign prev name value) s.

(** [formData] as [submitGovernanceProposal] reads it: the form state
    has no [targets], [values] or [calldatas]. *)
Definition asGovernanceProposal (d : ProposalData)
  : Web3.GovernanceProposalData :=
  {| Web3.fields := d; Web3.targets := None; Web3.values := None;
     Web3.calldatas := None |}.

(** An optional string inside a template literal. *)
Definition showOptional (o : option string) : string :=
  match o with
  | Some x => x
  | None => "undefined"
  end.

Definition resetForm : Async State unit :=
  update (setFormData (fun _ => initialFormData)).

Definition handleSubmit (props : Props) : Async State unit :=
  (* the values the handler closes over *)
  rendered <- get ;;
  let formData := formData rendered in
  emit PreventDefault ;;
  update (setIsSubmitting true) ;;
  update (setMessage {| text := "Processing submission..."; type := info |}) ;;
  finally
    (catch
       ((* Call the external onSubmit if provided *)
        match onSubmit props with
        | Some callback =>
            perform (OnSubmitProp formData) (fun _ => callback formData)
        | None => ret tt
        end ;;
        match walletConnected rendered, signer rendered with
        | true, Some signer =>
            (* Submit to blockchain via Governor contract *)
            update (setMessage {| text := "Submitting proposal to blockchain...";
                                  type := info |}) ;;
            result <- Web3.submitGovernanceProposal signer
                        (asGovernanceProposal formData) ;;
            if Web3.success result then
              match Web3.transactionHash result with
              | Some transactionHash =>
                  update (setMessage
                    {| text := "Proposal submitted on-chain! Transaction: " ++
                               slice0 transactionHash 10 ++ "...";
                       type := success |}) ;;
                  (* Reset the form *)
                  resetForm
              | None =>
                  raise (TypeError
                    "Cannot read properties of undefined (reading 'slice')")
              end
            else
              update (setMessage
                {| text := orElse (Web3.error result)
                             "Failed to submit proposal to blockchain";
                   type := error |})
        | _, _ =>
            (* Fall back to mock implementation if wallet not connected *)
            result <- Proposals.submitProposal formData ;;
            if Proposals.success result then
              update (setMessage
                {| text := "Proposal submitted (mock)! Proposal ID: " ++
                           showOptional (Proposals.proposalId result);
                   type := success |}) ;;
              (* Reset the form *)
              resetForm
            else
              update (setMessage
                {| text := orElse (Some (Proposals.message result))
                             "Failed to submit proposal";
                   type := error |})
        end)
       (fun err =>
          update (setMessage
            {| text := messageOr "An unexpected error occurred" err;
               type := error |})))
    (update (setIsSubmitting false)).

(** ** The constraints the markup puts on the inputs

    [title] and [description] are [required]; [votingPeriod] is a
    [type="number"] input, [required], with [min="1"] and [max="30"];
    the [<select>] of [proposalType] is [required].  The inputs are
    controlled, so each shows the value held by [formData]. *)

Definition titleValid (d : ProposalData) : bool :=
  negb (String.eqb (title d) "").

Definition descriptionValid (d : ProposalData) : bool :=
  negb (String.eqb (description d) "").

Definition proposalTypeValid (d : ProposalData) : bool :=
  negb (String.eqb (proposalType d) "").

(** [NaN] shows as the empty value, which [required] refuses. *)
Definition votingPeriodValid (d : ProposalData) : bool :=
  match votingPeriod d with
  | Num n => (1 <=? n) && (n <=? 30)
  | NaN => false
  end.

Definition checkValidity (d : ProposalData) : bool :=
  titleValid d && descriptionValid d && proposalTypeValid d &&
  votingPeriodValid d.

(** What [<form onSubmit={handleSubmit}>] does when the user submits
    it: the browser validates the constraints first (the form has no
    [noValidate]) and fires the submit event, hence [handleSubmit],
    only when they all hold. *)
Definition form_submit (props : Props) : Async State unit :=
  s <- get ;;
  if checkValidity (formData s) then handleSubmit props
  else ret tt.

End ProposalForm.

(* ===================================================================== *)
(** * Example worlds                                                     *)
(* ===================================================================== *)

Module Worlds.

Definition userRejected : Thrown :=
  ErrorObject "user rejected action" (Some 4001).

(** A wallet on Sepolia that grants every request. *)
Definition sepoliaWallet : Env :=
  {| window_ethereum := true;
     ethereum_request := fun _ _ => Normal tt;
     provider_getNetwork := Normal 11155111;
     provider_getSigner := Normal (mkSigner 0);
     signer_getAddress := fun _ => Normal "0x663d3FC1a358548c12f635de2aaca31FC637ABC6";
     contract_propose := fun _ _ _ _ _ _ => Normal (mkTx "0xce7230110b64ac89");
     tx_wait := fun tx => Normal (Some (mkReceipt (tx_hash tx)));
     contract_balanceOf := fun _ _ => Normal (3 * 10 ^ 18 / 2);
     Math_random_toString36 := "0.4fzyo82mvyr" |}.

(** A browser without a wallet extension. *)
Definition noWallet : Env :=
  {| window_ethereum := false;
     ethereum_request := fun _ _ => Abrupt Nullish;
     provider_getNetwork := Abrupt Nullish;
     provider_getSigner := Abrupt Nullish;
     signer_getAddress := fun _ => Abrupt Nullish;
     contract_propose := fun _ _ _ _ _ _ => Abrupt Nullish;
     tx_wait := fun _ => Abrupt Nullish;
     contract_balanceOf := fun _ _ => Abrupt Nullish;
     Math_random_toString36 := "0" |}.


(** A wallet on Sepolia whose user rejects the transaction. *)
Definition rejectingWallet : Env :=
  {| window_ethereum := true;
     ethereum_request := fun _ _ => Normal tt;
     provider_getNetwork := Normal 11155111;
     provider_getSigner := Normal (mkSigner 0);
     signer_getAddress := fun _ => Normal "0x663d3FC1a358548c12f635de2aaca31FC637ABC6";
     contract_propose := fun _ _ _ _ _ _ => Abrupt userRejected;
     tx_wait := fun _ => Abrupt Nullish;
     contract_balanceOf := fun _ _ => Abrupt (ErrorObject "execution reverted" None);
     Math_random_toString36 := "0.4fzyo82mvyr" |}.


Definition draft : ProposalData :=
  {| title := "Increase quorum by 3 votes";
     description := "Raise the quorum.";
     votingPeriod := Num 7;
     proposalType := "parameter" |}.

(** The form filled with [draft], and the same with a connected
    wallet. *)
Definition filled : ProposalForm.State :=
  ProposalForm.setFormData (fun _ => draft) ProposalForm.initialState.

Definition connected : ProposalForm.State :=
  {| ProposalForm.formData := draft;
     ProposalForm.isSubmitting := false;
     ProposalForm.message := None;
     ProposalForm.walletConnected := true;
     ProposalForm.walletAddress := Some "0x663d3FC1a358548c12f635de2aaca31FC637ABC6";
     ProposalForm.signer := Some (mkSigner 0);
     ProposalForm.votingPower := Some "1.5" |}.

Definition noProps : ProposalForm.Props := {| ProposalForm.onSubmit := None |}.

End Worlds.

(* ===================================================================== *)
(** * components/ProposalForm: the wallet panel and the rendered buttons *)
(* ===================================================================== *)

Module ProposalFormWallet.
Import ProposalForm.

(** The remaining state setters. *)
Definition setWalletConnected (b : bool) (s : State) : State :=
  {| formData := formData s; isSubmitting := isSubmitting s;
     message := message s; walletConnected := b;
     walletAddress := walletAddress s; signer := signer s;
     votingPower := votingPower s |}.

Definition setWalletAddress (a : option string) (s : State) : State :=
  {| formData := formData s; isSubmitting := isSubmitting s;
     message := message s; walletConnected := walletConnected s;
     walletAddress := a; signer := signer s;
     votingPower := votingPower s |}.

Definition setSigner (sg : option Signer) (s : State) : State :=
  {| formData := formData s; isSubmitting := isSubmitting s;
     message := message s; walletConnected := walletConnected s;
     walletAddress := walletAddress s; signer := sg;
     votingPower := votingPower s |}.

Definition setVotingPower (v : option string) (s : State) : State :=
  {| formData := formData s; isSubmitting := isSubmitting s;
     message := message s; walletConnected := walletConnected s;
     walletAddress := walletAddress s; signer := signer s;
     votingPower := v |}.

(** [s.slice(-n)]: the last [n] characters, all of [s] when it is
    shorter. *)
Definition sliceLast (s : string) (n : nat) : string :=
  String.substring (String.length s - n) n s.

(** An optional string as a condition: [undefined], [null] and ['']
    are falsy; a truthy one is handed on. *)
Definition truthyString (o : option string) : option string :=
  match o with
  | Some s => if String.eqb s "" then None else Some s
  | None => None
  end.

(** [flag && str]: the string when both are truthy. *)
Definition andString (flag : bool) (o : option string) : option string :=
  if flag then truthyString o else None.

Definition fetchVotingPower (address : string) : Async State unit :=
  result <- Web3.getVotingPower address ;;
  match andString (Web3.success result) (Web3.balance result) with
  | Some balance => update (setVotingPower (Some balance))
  | None => ret tt
  end.

(** The effect that follows [walletConnected] and [walletAddress]:
    fetch voting power when wallet is connected. *)
Definition votingPowerEffect : Async State unit :=
  s <- get ;;
  match andString (walletConnected s) (walletAddress s) with
  | Some address => fetchVotingPower address
  | None => ret tt
  end.

Definition handleConnectWallet : Async State unit :=
  update (setMessage {| text := "Connecting to wallet..."; type := info |}) ;;
  result <- Web3.connectWallet ;;
  match andString (Web3.success result) (Web3.address result) with
  | Some address =>
      update (setWalletConnected true) ;;
      update (setWalletAddress (Some address)) ;;
      update (setSigner (Web3.signer result)) ;;
      update (setMessage
        {| text := "Connected: " ++ slice0 address 6 ++ "..." ++
                   sliceLast address 4;
           type := success |})
  | None =>
      update (setMessage
        {| text := orElse (Web3.error result) "Failed to connect wallet";
           type := error |})
  end.

(** ** What the markup derives from the state *)



(** The "Connect Wallet" button is rendered when [!walletConnected]. *)
Definition connectButtonShown (s : State) : bool :=
  negb (walletConnected s).

(** ** The states a page view goes through

    One step is one run of a handler of the component, in any world:
    a change event, a submit event, a click on "Connect Wallet", or the
    voting-power effect. *)
Inductive Step : State -> State -> Prop :=
| step_change (e : ChangeEvent) (s : State) :
    Step s (handleChange e s)
| step_submit (props : Props) (env : Env) (t : Trace) (s : State) :
    Step s (stateOf (handleSubmit props env s t))
| step_connect (env : Env) (t : Trace) (s : State) :
    Step s (stateOf (handleConnectWallet env s t))
| step_effect (env : Env) (t : Trace) (s : State) :
    Step s (stateOf (votingPowerEffect env s t)).

Inductive Reachable : State -> Prop :=
| reach_initial : Reachable initialState
| reach_step (s s' : State) : Reachable s -> Step s s' -> Reachable s'.

(** The test [walletConnected && signer] of [handleSubmit]. *)
Definition onChainPath (s : State) : bool :=
  walletConnected s && match signer s with Some _ => true | None => false end.

End ProposalFormWallet.

(* ===================================================================== *)
(** * Vocabulary of the properties                                       *)
(* ===================================================================== *)

Import ProposalForm.
Import ProposalFormWallet.

(** [e.code] of a thrown value that is not [null] or [undefined]. *)
Definition thrownCode (e : Thrown) : option Z :=
  match e with
  | ErrorObject _ code => code
  | OtherValue code => code
  | Nullish => None
  end.

Definition requestAccounts : Effect := EthereumRequest "eth_requestAccounts" [].

Definition switchToSepolia : Effect :=
  EthereumRequest "wallet_switchEthereumChain" [ChainIdParam "0xaa36a7"].


(** A result that reports a failure: [success = false] and a string in
    [error]. *)
Definition reports (r : Web3.Result) (msg : string) : Prop :=
  Web3.success r = false /\ Web3.error r = Some msg.

Definition isPropose (ef : Effect) : bool :=
  match ef with
  | Propose _ _ _ _ _ _ => true
  | _ => false
  end.

(** [submitGovernanceProposal] reads and writes no state of its caller,
    and what it returns and does depends on the world alone.  [resultOf]
    and [effectsOf] name both, from a run on the unit state and the
    empty trace. *)
Definition resultOf {A} (m : Async unit A) (env : Env) : Completion A :=
  completion (m env tt []).

Definition effectsOf {A} (m : Async unit A) (env : Env) : list Effect :=
  traceOf (m env tt []).

(** The [onSubmit] callback of the parent, when there is one, returns. *)
Definition callbackCompletes (props : Props) (d : ProposalData) : Prop :=
  match onSubmit props with
  | Some callback => callback d = Normal tt
  | None => True
  end.

Definition messageType (s : State) : option MessageType :=
  match message s with
  | Some m => Some (type m)
  | None => None
  end.

(** [votingPeriod] is an integer from 1 to 30. *)
Definition inRange_1_30 (n : number) : Prop :=
  exists z, n = Num z /\ 1 <= z <= 30.

(** What [onSubmit?.(formData)] adds to the trace. *)
Definition callbackEffects (props : Props) (d : ProposalData) : list Effect :=
  match onSubmit props with
  | Some _ => [OnSubmitProp d]
  | None => []
  end.

(** The effects of the mock submission: its timer and its random
    number. *)
Definition isMockEffect (ef : Effect) : bool :=
  match ef with
  | SetTimeout _ => true
  | MathRandom => true
  | _ => false
  end.

(** [Number.MAX_SAFE_INTEGER], 2^53 - 1: up to this magnitude every
    integer is a double of its own, so [parseInt] and [toString] are
    exact and [Num z] is the very number the program holds. *)
Definition MAX_SAFE_INTEGER : Z := 9007199254740991.

Definition isSafeInteger (z : Z) : Prop :=
  - MAX_SAFE_INTEGER <= z <= MAX_SAFE_INTEGER.

(** [NaN] or a safe integer. *)
Definition isExact (n : number) : Prop :=
  match n with
  | NaN => True
  | Num z => isSafeInteger z
  end.

(** The four inputs of the form. *)
Definition isFieldName (name : string) : bool :=
  String.eqb name "title" || String.eqb name "description" ||
  String.eqb name "votingPeriod" || String.eqb name "proposalType".

(** The wallet cells of a state agree with each other: not connected
    means no address, signer or voting power; connected means an address
    and a signer. *)
Definition walletCoherent (s : State) : Prop :=
  (walletConnected s = false ->
   walletAddress s = None /\ signer s = None /\ votingPower s = None) /\
  (walletConnected s = true ->
   (exists a, walletAddress s = Some a /\ a <> "") /\
   (exists sg, signer s = Some sg)).

(* ===================================================================== *)
(** * Properties                                                         *)
(* ===================================================================== *)

(** ** The JavaScript helpers on concrete inputs *)

Example parseInt_decimal : parseInt "45" = Num 45.
Proof. reflexivity. Qed.

Example parseInt_empty : parseInt "" = NaN.
Proof. reflexivity. Qed.

Example parseInt_fraction : parseInt " -12.7" = Num (-12).
Proof. reflexivity. Qed.

Example parseInt_hex : parseInt "0x1f" = Num 31.
Proof. reflexivity. Qed.

Example toString16_sepolia : toString16 11155111 = "aa36a7".
Proof. reflexivity. Qed.

Example parseEther_zero : Ethers.parseEther "0" = Normal 0.
Proof. reflexivity. Qed.

Example parseEther_invalid :
  Ethers.parseEther "1 ETH" = Abrupt Ethers.invalidFixedNumber.
Proof. reflexivity. Qed.

Example formatEther_one_and_a_half :
  Ethers.formatEther 1500000000000000000 = "1.5".
Proof. reflexivity. Qed.

(** One step of symbolic execution: unfold the monad, keep the traces
    right-nested. *)
Ltac run :=
  cbn -[JS.substring Ethers.parseEther Ethers.formatEther String.append
        String.eqb Z.eqb toString16];
  rewrite <- ?app_assoc;
  cbn [app].

(** ** The mock submission path (proposals.ts) *)

Lemma submitProposal_run {S} (data : ProposalData) (env : Env)
    (s : S) (t : Trace) :
  Proposals.submitProposal data env s t =
  (Normal {| Proposals.success := true;
             Proposals.message := "Proposal submitted successfully";
             Proposals.proposalId :=
               Some ("prop_" ++ JS.substring (Math_random_toString36 env) 2 10) |},
   s,
   (t ++ [ConsoleLog "Submitting proposal:" (LogData data);
          SetTimeout 1500;
          MathRandom])%list).
Proof.
  unfold Proposals.submitProposal, Proposals.submitProposal_try.
  run. reflexivity.
Qed.

(** Claim C2.  For every proposal data and whatever the outside world
    does, the mock [submitProposal] throws nothing, touches no state,
    waits on a timer of 1500 ms after logging the data, and returns
    [success = true], the message 'Proposal submitted successfully' and
    a new identifier: 'prop_' followed by characters 2 to 9 of the
    base-36 rendering of a fresh random number. *)
Theorem submitProposal_mock_success {S} (data : ProposalData) (env : Env)
    (s : S) (t : Trace) :
  exists suffix : string,
    suffix = JS.substring (Math_random_toString36 env) 2 10 /\
    Proposals.submitProposal data env s t =
    (Normal {| Proposals.success := true;
               Proposals.message := "Proposal submitted successfully";
               Proposals.proposalId := Some ("prop_" ++ suffix) |},
     s,
     (t ++ [ConsoleLog "Submitting proposal:" (LogData data);
            SetTimeout 1500;
            MathRandom])%list).
Proof.
  eexists. split; [reflexivity|]. apply submitProposal_run.
Qed.

(** Claim C9.  The result of the mock [submitProposal] carries the
    success flag and has an identifier exactly when the flag is true;
    the result built by its [catch] block has the flag false, no
    identifier, and the error's message (or the fixed fallback text) in
    [message]. *)
Theorem submitProposal_result_shape {S} (data : ProposalData) (env : Env)
    (s : S) (t : Trace) :
  (exists r,
      completion (Proposals.submitProposal data env s t) = Normal r /\
      (Proposals.success r = true <-> exists id, Proposals.proposalId r = Some id) /\
      (Proposals.success r = false <-> Proposals.proposalId r = None)) /\
  (forall e : Thrown,
      exists r,
        completion (Proposals.submitProposal_catch e env s t) = Normal r /\
        Proposals.success r = false /\
        Proposals.proposalId r = None /\
        Proposals.message r = messageOr "Failed to submit proposal" e).
Proof.
  split.
  - rewrite submitProposal_run. eexists. split; [reflexivity|].
    cbn. split; split; intros H; try discriminate; eauto.
  - intros e. eexists. unfold Proposals.submitProposal_catch. run.
    repeat split; reflexivity.
Qed.

(** ** Wallet connection (web3.ts) *)

Lemma connectWallet_present {S} (env : Env) (s : S) (t : Trace) :
  window_ethereum env = true ->
  Web3.connectWallet env s t =
  catch Web3.connectWallet_try Web3.connectWallet_catch env s t.
Proof.
  intros H. unfold Web3.connectWallet, Web3.hasEthereum. cbn. rewrite H.
  reflexivity.
Qed.

(** Claim C8.  When no wallet provider is present, [connectWallet]
    returns [success = false] with the error 'MetaMask not installed'
    and performs no external operation at all: the trace is the one it
    started from, so no account-access request is made. *)
Theorem connectWallet_without_provider {S} (env : Env) (s : S) (t : Trace) :
  window_ethereum env = false ->
  Web3.connectWallet env s t =
    (Normal (Web3.failure "MetaMask not installed"), s, t) /\
  Web3.success (Web3.failure "MetaMask not installed") = false /\
  Web3.error (Web3.failure "MetaMask not installed") =
    Some "MetaMask not installed" /\
  ~ In requestAccounts (skipn (length t) (traceOf (Web3.connectWallet env s t))).
Proof.
  intros H.
  assert (E : Web3.connectWallet env s t =
              (Normal (Web3.failure "MetaMask not installed"), s, t)).
  { unfold Web3.connectWallet, Web3.hasEthereum. cbn. rewrite H. reflexivity. }
  repeat split; try assumption.
  rewrite E. unfold traceOf. cbn [snd]. rewrite skipn_all. intros [].
Qed.

Lemma connectWallet_without_provider_witness :
  window_ethereum Worlds.noWallet = false /\
  Web3.connectWallet Worlds.noWallet tt [] =
    (Normal (Web3.failure "MetaMask not installed"), tt, []).
Proof.
  split; [reflexivity|].
  exact (proj1 (connectWallet_without_provider Worlds.noWallet tt [] eq_refl)).
Defined.







(** ** Errors raised inside the wallet functions (web3.ts) *)

Lemma catch_completion {S A} (m : Async S A) (h : Thrown -> Async S A)
    (env : Env) (s : S) (t : Trace) :
  completion (catch m h env s t) =
  match m env s t with
  | (Normal a, _, _) => Normal a
  | (Abrupt e, s', t') => completion (h e env s' t')
  end.
Proof.
  cbn. destruct (m env s t) as [[[a|e] s'] t']; reflexivity.
Qed.

(** A [try]/[catch] whose handler always returns, returns; and when the
    body throws, the result is the handler's. *)
Lemma catch_returns {S A} (m : Async S A) (h : Thrown -> Async S A)
    (report : Thrown -> A) (env : Env) (s : S) (t : Trace) :
  (forall e s' t', completion (h e env s' t') = Normal (report e)) ->
  exists r,
    completion (catch m h env s t) = Normal r /\
    (forall e, completion (m env s t) = Abrupt e -> r = report e) /\
    (forall a, completion (m env s t) = Normal a -> r = a).
Proof.
  intros Hh. rewrite catch_completion. unfold completion at 2 3.
  destruct (m env s t) as [[[a|e] s'] t']; cbn [fst].
  - exists a. repeat split; intros; congruence.
  - rewrite Hh. exists (report e). repeat split; intros; congruence.
Qed.

(** A sequence that returns went through its first part normally. *)
Lemma bind_normal {S A B} (m : Async S A) (k : A -> Async S B)
    (env : Env) (s : S) (t : Trace) (b : B) :
  completion (bind m k env s t) = Normal b ->
  exists a s' t',
    m env s t = (Normal a, s', t') /\ completion (k a env s' t') = Normal b.
Proof.
  cbn. destruct (m env s t) as [[[a|e] s'] t']; [|discriminate].
  intros H. exists a, s', t'. split; [reflexivity|exact H].
Qed.

Ltac bind_normal H :=
  let a := fresh "a" in
  let s := fresh "s" in
  let t := fresh "t" in
  let E := fresh "E" in
  apply bind_normal in H as (a & s & t & E & H).

Lemma connectWallet_try_success {S} (env : Env) (s : S) (t : Trace)
    (r : Web3.Result) :
  completion (Web3.connectWallet_try env s t) = Normal r ->
  Web3.success r = true.
Proof.
  unfold Web3.connectWallet_try. intros H.
  do 5 bind_normal H. cbn in H. injection H as <-. reflexivity.
Qed.

Lemma submitGovernanceProposal_try_success {S} (sg : Signer)
    (d : Web3.GovernanceProposalData) (env : Env) (s : S) (t : Trace)
    (r : Web3.Result) :
  completion (Web3.submitGovernanceProposal_try sg d env s t) = Normal r ->
  Web3.success r = true /\
  exists h, Web3.transactionHash r = Some h /\ Web3.proposalId r = Some h.
Proof.
  unfold Web3.submitGovernanceProposal_try. intros H.
  do 6 bind_normal H. destruct a3 as [rc|]; [|discriminate].
  cbn in H. injection H as <-. split; [reflexivity|]. eexists; split; reflexivity.
Qed.

Lemma getVotingPower_try_success {S} (a : string) (env : Env) (s : S)
    (t : Trace) (r : Web3.Result) :
  completion (Web3.getVotingPower_try a env s t) = Normal r ->
  Web3.success r = true.
Proof.
  unfold Web3.getVotingPower_try. intros H.
  bind_normal H. cbn in H. injection H as <-. reflexivity.
Qed.

Lemma failure_reports (msg : string) : reports (Web3.failure msg) msg.
Proof. split; reflexivity. Qed.

Lemma connectWallet_returns {S} (env : Env) (s : S) (t : Trace) :
  exists r,
    completion (Web3.connectWallet env s t) = Normal r /\
    (window_ethereum env = false -> reports r "MetaMask not installed") /\
    (forall e,
        window_ethereum env = true ->
        completion (Web3.connectWallet_try env s t) = Abrupt e ->
        reports r (messageOr "Failed to connect wallet" e)) /\
    (Web3.success r = false -> exists msg, reports r msg).
Proof.
  destruct (window_ethereum env) eqn:Hwin.
  - rewrite (connectWallet_present env s t Hwin).
    destruct (catch_returns Web3.connectWallet_try Web3.connectWallet_catch
                (fun e => Web3.failure (messageOr "Failed to connect wallet" e))
                env s t) as (r & Hr & Hthrow & Hok); [reflexivity|].
    exists r. split; [exact Hr|]. split; [discriminate|]. split.
    + intros e _ He. rewrite (Hthrow e He). apply failure_reports.
    + intros Hfalse.
      destruct (completion (Web3.connectWallet_try env s t)) as [a|e] eqn:Hc.
      * rewrite (Hok a eq_refl) in Hfalse.
        rewrite (connectWallet_try_success env s t a Hc) in Hfalse.
        discriminate.
      * eexists. rewrite (Hthrow e eq_refl). apply failure_reports.
  - exists (Web3.failure "MetaMask not installed").
    unfold Web3.connectWallet, Web3.hasEthereum. cbn. rewrite Hwin.
    split; [reflexivity|]. split; [intros _; apply failure_reports|].
    split; [discriminate|]. intros _. eexists. apply failure_reports.
Qed.

Lemma submitGovernanceProposal_returns {S} (sg : Signer)
    (d : Web3.GovernanceProposalData) (env : Env) (s : S) (t : Trace) :
  exists r,
    completion (Web3.submitGovernanceProposal sg d env s t) = Normal r /\
    (forall e,
        completion (Web3.submitGovernanceProposal_try sg d env s t) = Abrupt e ->
        reports r (messageOr "Failed to submit proposal" e)) /\
    (Web3.success r = false -> exists msg, reports r msg).
Proof.
  unfold Web3.submitGovernanceProposal.
  destruct (catch_returns (Web3.submitGovernanceProposal_try sg d)
              Web3.submitGovernanceProposal_catch
              (fun e => Web3.failure (messageOr "Failed to submit proposal" e))
              env s t) as (r & Hr & Hthrow & Hok); [reflexivity|].
  exists r. split; [exact Hr|]. split.
  - intros e He. rewrite (Hthrow e He). apply failure_reports.
  - intros Hfalse.
    destruct (completion (Web3.submitGovernanceProposal_try sg d env s t))
      as [a|e] eqn:Hc.
    + rewrite (Hok a eq_refl) in Hfalse.
      destruct (submitGovernanceProposal_try_success sg d env s t a Hc) as [Ht _].
      rewrite Ht in Hfalse. discriminate.
    + eexists. rewrite (Hthrow e eq_refl). apply failure_reports.
Qed.

Lemma getVotingPower_returns {S} (a : string) (env : Env) (s : S) (t : Trace) :
  exists r,
    completion (Web3.getVotingPower a env s t) = Normal r /\
    (window_ethereum env = false -> reports r "MetaMask not installed") /\
    (forall e,
        window_ethereum env = true ->
        completion (Web3.getVotingPower_try a env s t) = Abrupt e ->
        reports r (messageOr "Failed to get voting power" e)) /\
    (Web3.success r = false -> exists msg, reports r msg).
Proof.
  destruct (window_ethereum env) eqn:Hwin.
  - assert (E : Web3.getVotingPower a env s t =
                catch (Web3.getVotingPower_try a) Web3.getVotingPower_catch env s t).
    { unfold Web3.getVotingPower, Web3.hasEthereum. cbn. rewrite Hwin.
      reflexivity. }
    rewrite E.
    destruct (catch_returns (Web3.getVotingPower_try a) Web3.getVotingPower_catch
                (fun e => Web3.failure (messageOr "Failed to get voting power" e))
                env s t) as (r & Hr & Hthrow & Hok); [reflexivity|].
    exists r. split; [exact Hr|]. split; [discriminate|]. split.
    + intros e _ He. rewrite (Hthrow e He). apply failure_reports.
    + intros Hfalse.
      destruct (completion (Web3.getVotingPower_try a env s t)) as [x|e] eqn:Hc.
      * rewrite (Hok x eq_refl) in Hfalse.
        rewrite (getVotingPower_try_success a env s t x Hc) in Hfalse.
        discriminate.
      * eexists. rewrite (Hthrow e eq_refl). apply failure_reports.
  - exists (Web3.failure "MetaMask not installed").
    unfold Web3.getVotingPower, Web3.hasEthereum. cbn. rewrite Hwin.
    split; [reflexivity|]. split; [intros _; apply failure_reports|].
    split; [discriminate|]. intros _. eexists. apply failure_reports.
Qed.

(** Claim C3.  Whatever the outside world does, [connectWallet],
    [submitGovernanceProposal] and [getVotingPower] complete normally:
    no exception reaches the caller.  When the wallet is absent, or when
    anything throws inside their [try] block (a refused request, a wrong
    network, a rejected transaction, a revert), the object returned has
    [success = false] and a string in [error]: the message of the error,
    or the function's fixed text when the thrown value is not an
    [Error].  Every result with [success = false] carries such a
    string. *)
Theorem web3_errors_are_returned {S} (env : Env) (s : S) (t : Trace) :
  (exists r,
      completion (Web3.connectWallet env s t) = Normal r /\
      (window_ethereum env = false -> reports r "MetaMask not installed") /\
      (forall e,
          window_ethereum env = true ->
          completion (Web3.connectWallet_try env s t) = Abrupt e ->
          reports r (messageOr "Failed to connect wallet" e)) /\
      (Web3.success r = false -> exists msg, reports r msg)) /\
  (forall signer proposalData,
      exists r,
        completion (Web3.submitGovernanceProposal signer proposalData env s t) =
          Normal r /\
        (forall e,
            completion (Web3.submitGovernanceProposal_try signer proposalData env s t)
              = Abrupt e ->
            reports r (messageOr "Failed to submit proposal" e)) /\
        (Web3.success r = false -> exists msg, reports r msg)) /\
  (forall address,
      exists r,
        completion (Web3.getVotingPower address env s t) = Normal r /\
        (window_ethereum env = false -> reports r "MetaMask not installed") /\
        (forall e,
            window_ethereum env = true ->
            completion (Web3.getVotingPower_try address env s t) = Abrupt e ->
            reports r (messageOr "Failed to get voting power" e)) /\
        (Web3.success r = false -> exists msg, reports r msg)).
Proof.
  split; [apply connectWallet_returns|]. split.
  - intros sg d. apply submitGovernanceProposal_returns.
  - intros a. apply getVotingPower_returns.
Qed.

(** In the world of a user who rejects the transaction, the rejection
    comes back as an error string. *)
Lemma web3_errors_are_returned_witness :
  exists r,
    completion
      (Web3.submitGovernanceProposal (mkSigner 0)
         (ProposalForm.asGovernanceProposal Worlds.draft)
         Worlds.rejectingWallet tt []) = Normal r /\
    reports r "user rejected action".
Proof.
  destruct (proj1 (proj2 (web3_errors_are_returned Worlds.rejectingWallet tt []))
              (mkSigner 0) (ProposalForm.asGovernanceProposal Worlds.draft))
    as (r & Hr & Hthrow & _).
  exists r. split; [exact Hr|].
  exact (Hthrow Worlds.userRejected eq_refl).
Defined.

(** ** The Governor call (web3.ts) *)

Lemma submitGovernanceProposal_run {S} (sg : Signer)
    (d : Web3.GovernanceProposalData) (env : Env) (s : S) (t : Trace) :
  Web3.submitGovernanceProposal sg d env s t =
  (resultOf (Web3.submitGovernanceProposal sg d) env, s,
   (t ++ effectsOf (Web3.submitGovernanceProposal sg d) env)%list).
Proof.
  unfold resultOf, effectsOf, completion, traceOf,
    Web3.submitGovernanceProposal, Web3.submitGovernanceProposal_try,
    Web3.submitGovernanceProposal_catch.
  run.
  destruct (Web3.mapThrowing Ethers.parseEther _) as [vs|e]; run;
    [|reflexivity].
  destruct (contract_propose env _ _ _ _ _ _) as [tx|e]; run; [|reflexivity].
  destruct (tx_wait env tx) as [[rc|]|e]; run; reflexivity.
Qed.

(** Claim C6.  When the caller supplies no targets, values or calldatas,
    [submitGovernanceProposal] makes exactly one contract call:
    [propose] on the contract at the fixed Governor address, run by the
    given signer, with the timelock address as the only target, a single
    value of 0 wei, a single empty-bytes calldata '0x', and a
    description built from the title, the description, the proposal type
    and the voting period.  The same parameters are logged just before
    the call. *)
Theorem submitGovernanceProposal_default_call {S} (signer : Signer)
    (data : ProposalData) (env : Env) (s : S) (t : Trace) :
  let text :=
    "# " ++ title data ++ Web3.LF ++ Web3.LF ++
    description data ++ Web3.LF ++ Web3.LF ++
    "Type: " ++ proposalType data ++ Web3.LF ++
    "Voting Period: " ++ numberToString (votingPeriod data) ++ " days" in
  let targets := ["0xF269cFe75b406B074a93cDEa74B7338D6257F9C9"] in
  let values := [0] in
  let calldatas := ["0x"] in
  exists rest,
    traceOf
      (Web3.submitGovernanceProposal signer
         {| Web3.fields := data; Web3.targets := None; Web3.values := None;
            Web3.calldatas := None |} env s t) =
    (t ++ [ConsoleLog "Submitting proposal with parameters:"
             (LogParameters targets values calldatas text);
           Propose "0xceb8CB84415bb7712f1B34f628f00d805cd6740B" signer
             targets values calldatas text]
       ++ rest)%list /\
    existsb isPropose rest = false /\
    Web3.TIMELOCK_CONTRACT_ADDRESS = "0xF269cFe75b406B074a93cDEa74B7338D6257F9C9" /\
    Web3.GOVERNOR_CONTRACT_ADDRESS = "0xceb8CB84415bb7712f1B34f628f00d805cd6740B".
Proof.
  intros text targets values calldatas.
  unfold Web3.submitGovernanceProposal, Web3.submitGovernanceProposal_try,
    Web3.submitGovernanceProposal_catch.
  run. change (Ethers.parseEther "0") with (Normal (A := Z) 0). run.
  fold text.
  destruct (contract_propose env _ _ _ _ _ _) as [tx|e]; run.
  - destruct (tx_wait env tx) as [[rc|]|e]; run;
      eexists; repeat split; reflexivity.
  - eexists; repeat split; reflexivity.
Qed.

(** ** The form (ProposalForm) *)

(** Symbolic execution of a handler of the form: the two submission
    functions are entered through [submitGovernanceProposal_run] and
    [submitProposal_run]. *)
Ltac run_form :=
  unfold finally;
  cbn -[JS.substring Ethers.parseEther Ethers.formatEther String.append
        String.eqb Z.eqb toString16 Web3.submitGovernanceProposal
        Proposals.submitProposal slice0 orElse messageOr];
  rewrite ?submitGovernanceProposal_run, ?submitProposal_run.

(** Every run of [handleSubmit] completes normally, clears
    [isSubmitting], and ends in one of two ways: an error message and the
    form data it started with, or a success message and the initial form
    data. *)
Lemma handleSubmit_outcome (props : Props) (env : Env) (s : State) (t : Trace) :
  let r := handleSubmit props env s t in
  completion r = Normal tt /\
  isSubmitting (stateOf r) = false /\
  ((formData (stateOf r) = formData s /\ messageType (stateOf r) = Some error) \/
   (formData (stateOf r) = initialFormData /\
    messageType (stateOf r) = Some success)).
Proof.
  unfold handleSubmit. run_form.
  destruct (onSubmit props) as [callback|]; run_form.
  1: destruct (callback (formData s)) as [[]|e]; run_form.
  2: { repeat split. left. split; reflexivity. }
  all: destruct (walletConnected s); run_form.
  all: try destruct (signer s) as [sg|]; run_form.
  all: try (repeat split; right; split; reflexivity).
  all: match goal with
       | |- context [resultOf ?m ?w] => destruct (resultOf m w) as [r|e]
       end; run_form.
  all: try destruct (Web3.success r); run_form.
  all: try destruct (Web3.transactionHash r); run_form.
  all: repeat split; try (left; split; reflexivity);
       try (right; split; reflexivity).
Qed.

Lemma submitGovernanceProposal_success_hash (sg : Signer)
    (d : Web3.GovernanceProposalData) (env : Env) (r : Web3.Result) :
  resultOf (Web3.submitGovernanceProposal sg d) env = Normal r ->
  Web3.success r = true ->
  exists h, Web3.transactionHash r = Some h.
Proof.
  unfold resultOf, Web3.submitGovernanceProposal. intros Hr Hs.
  destruct (catch_returns (Web3.submitGovernanceProposal_try sg d)
              Web3.submitGovernanceProposal_catch
              (fun e => Web3.failure (messageOr "Failed to submit proposal" e))
              env tt []) as (r' & Hr' & Hthrow & Hok); [reflexivity|].
  rewrite Hr in Hr'. injection Hr' as <-.
  destruct (completion (Web3.submitGovernanceProposal_try sg d env tt []))
    as [a|e] eqn:Hc.
  - rewrite (Hok a eq_refl).
    destruct (submitGovernanceProposal_try_success sg d env tt [] a Hc)
      as (_ & h & Hh & _).
    exists h. exact Hh.
  - rewrite (Hthrow e eq_refl) in Hs. discriminate.
Qed.

(** Claim C4.  When the wallet is connected (the flag is set and a
    signer is held), the parent's callback, if any, returns, and
    [submitGovernanceProposal] returns [success = true], [handleSubmit]
    leaves every form field at its initial value: empty title and
    description, a voting period of 7 and the type 'general'. *)
Theorem handleSubmit_onchain_success_resets (props : Props) (env : Env)
    (s : State) (t : Trace) (sg : Signer) (r : Web3.Result) :
  walletConnected s = true ->
  signer s = Some sg ->
  callbackCompletes props (formData s) ->
  resultOf (Web3.submitGovernanceProposal sg (asGovernanceProposal (formData s)))
    env = Normal r ->
  Web3.success r = true ->
  formData (stateOf (handleSubmit props env s t)) =
    {| title := ""; description := ""; votingPeriod := Num 7;
       proposalType := "general" |} /\
  messageType (stateOf (handleSubmit props env s t)) = Some success.
Proof.
  intros Hw Hsg Hcb Hr Hs.
  destruct (submitGovernanceProposal_success_hash sg _ env r Hr Hs) as [h Hh].
  unfold handleSubmit, callbackCompletes in *. run_form.
  destruct (onSubmit props) as [callback|]; [rewrite Hcb|]; run_form;
    rewrite Hw, Hsg; run_form; rewrite Hr; run_form; rewrite Hs, Hh;
    split; reflexivity.
Qed.

Lemma handleSubmit_onchain_success_resets_witness :
  walletConnected Worlds.connected = true /\
  formData Worlds.connected = Worlds.draft /\
  formData
    (stateOf (handleSubmit Worlds.noProps Worlds.sepoliaWallet Worlds.connected []))
  = initialFormData.
Proof.
  split; [reflexivity|]. split; [reflexivity|].
  exact (proj1 (handleSubmit_onchain_success_resets Worlds.noProps
                  Worlds.sepoliaWallet Worlds.connected [] (mkSigner 0) _
                  eq_refl eq_refl I eq_refl eq_refl)).
Defined.

(** Claim C10.  A failed submission leaves the form data as it was when
    the submission started.  On the on-chain path, a result with
    [success = false] ends in an error message and unchanged form data;
    an exception thrown by the parent's callback is caught and ends the
    same way; and in general every run of [handleSubmit] that ends on an
    error message (which the three failure branches, and only they, set)
    has the title, description, voting period and proposal type it
    started with. *)
Theorem handleSubmit_failure_keeps_form (props : Props) (env : Env)
    (s : State) (t : Trace) :
  let s' := stateOf (handleSubmit props env s t) in
  (forall sg r,
      walletConnected s = true ->
      signer s = Some sg ->
      callbackCompletes props (formData s) ->
      resultOf (Web3.submitGovernanceProposal sg
                  (asGovernanceProposal (formData s))) env = Normal r ->
      Web3.success r = false ->
      formData s' = formData s /\
      message s' =
        Some {| text := orElse (Web3.error r)
                          "Failed to submit proposal to blockchain";
                type := error |}) /\
  (forall callback e,
      onSubmit props = Some callback ->
      callback (formData s) = Abrupt e ->
      formData s' = formData s /\
      message s' =
        Some {| text := messageOr "An unexpected error occurred" e;
                type := error |}) /\
  (messageType s' = Some error -> formData s' = formData s).
Proof.
  intros s'. split; [|split].
  - intros sg r Hw Hsg Hcb Hr Hs. subst s'.
    unfold handleSubmit, callbackCompletes in *. run_form.
    destruct (onSubmit props) as [callback|]; [rewrite Hcb|]; run_form;
      rewrite Hw, Hsg; run_form; rewrite Hr; run_form; rewrite Hs;
      split; reflexivity.
  - intros callback e Hp He. subst s'. unfold handleSubmit. run_form.
    rewrite Hp. run_form. rewrite He. run_form. split; reflexivity.
  - intros Herr.
    destruct (handleSubmit_outcome props env s t) as (_ & _ & [[Hf _]|[_ Hm]]).
    + exact Hf.
    + subst s'. rewrite Hm in Herr. discriminate.
Qed.

Lemma handleSubmit_failure_keeps_form_witness :
  resultOf (Web3.submitGovernanceProposal (mkSigner 0)
              (asGovernanceProposal Worlds.draft)) Worlds.rejectingWallet
    = Normal (Web3.failure "user rejected action") /\
  formData
    (stateOf (handleSubmit Worlds.noProps Worlds.rejectingWallet Worlds.connected []))
  = Worlds.draft.
Proof.
  split; [reflexivity|].
  exact (proj1 (proj1 (handleSubmit_failure_keeps_form Worlds.noProps
                         Worlds.rejectingWallet Worlds.connected [])
                  (mkSigner 0) (Web3.failure "user rejected action")
                  eq_refl eq_refl I eq_refl eq_refl)).
Defined.

(** ** Constraint validation before submission *)

Lemma votingPeriodValid_spec (d : ProposalData) :
  votingPeriodValid d = true <-> inRange_1_30 (votingPeriod d).
Proof.
  unfold votingPeriodValid, inRange_1_30. destruct (votingPeriod d) as [|z].
  - split; [discriminate|]. intros (z & H & _). discriminate.
  - rewrite andb_true_iff, !Z.leb_le. split.
    + intros H. exists z. split; [reflexivity|exact H].
    + intros (z' & [= <-] & H). exact H.
Qed.

Lemma form_submit_blocked (props : Props) (env : Env) (s : State) (t : Trace) :
  checkValidity (formData s) = false ->
  form_submit props env s t = (Normal tt, s, t).
Proof.
  intros H. unfold form_submit. cbn -[handleSubmit]. rewrite H. reflexivity.
Qed.

Lemma form_submit_valid (props : Props) (env : Env) (s : State) (t : Trace) :
  checkValidity (formData s) = true ->
  form_submit props env s t = handleSubmit props env s t.
Proof.
  intros H. unfold form_submit. cbn -[handleSubmit]. rewrite H. reflexivity.
Qed.

Lemma app_cons_neq {A} (t : list A) (a : A) (l : list A) :
  (t ++ a :: l)%list <> t.
Proof.
  intros H. apply (f_equal (@length A)) in H.
  rewrite length_app in H. cbn in H. lia.
Qed.

Lemma submitGovernanceProposal_leaves_effects {S} (sg : Signer)
    (d : Web3.GovernanceProposalData) (env : Env) (s : S) (t : Trace) :
  traceOf (Web3.submitGovernanceProposal sg d env s t) <> t.
Proof.
  unfold Web3.submitGovernanceProposal, Web3.submitGovernanceProposal_try,
    Web3.submitGovernanceProposal_catch.
  run.
  destruct (Web3.mapThrowing Ethers.parseEther _) as [vs|e]; run;
    [|apply app_cons_neq].
  destruct (contract_propose env _ _ _ _ _ _) as [tx|e]; run;
    [|apply app_cons_neq].
  destruct (tx_wait env tx) as [[rc|]|e]; run; apply app_cons_neq.
Qed.

Lemma submitProposal_leaves_effects {S} (d : ProposalData) (env : Env)
    (s : S) (t : Trace) :
  traceOf (Proposals.submitProposal d env s t) <> t.
Proof.
  rewrite submitProposal_run. apply app_cons_neq.
Qed.

(** Claim C5.  Submitting the form while the required title or the
    required description is empty is refused: the submit handler does
    not run, the state is untouched and no external effect happens.
    Since every call of [submitGovernanceProposal] and of the mock
    [submitProposal] leaves effects in the trace, neither was called. *)
Theorem form_rejects_empty_required_fields (props : Props) (env : Env)
    (s : State) (t : Trace) :
  title (formData s) = "" \/ description (formData s) = "" ->
  form_submit props env s t = (Normal tt, s, t) /\
  (forall sg d env' (s0 : State) t0,
      traceOf (Web3.submitGovernanceProposal sg d env' s0 t0) <> t0) /\
  (forall d env' (s0 : State) t0,
      traceOf (Proposals.submitProposal d env' s0 t0) <> t0).
Proof.
  intros H. split; [|split].
  - apply form_submit_blocked. unfold checkValidity, titleValid, descriptionValid.
    destruct H as [-> | ->]; cbn.
    + reflexivity.
    + rewrite andb_false_r. reflexivity.
  - intros. apply submitGovernanceProposal_leaves_effects.
  - intros. apply submitProposal_leaves_effects.
Qed.

Lemma form_rejects_empty_required_fields_witness :
  title (formData initialState) = "" /\
  form_submit Worlds.noProps Worlds.sepoliaWallet initialState [] =
    (Normal tt, initialState, []).
Proof.
  split; [reflexivity|].
  exact (proj1 (form_rejects_empty_required_fields Worlds.noProps
                  Worlds.sepoliaWallet initialState [] (or_introl eq_refl))).
Defined.

(** Without the constraints of the markup the handler itself accepts
    empty fields: called directly on the initial form it goes down the
    mock path. *)
Example handleSubmit_itself_accepts_empty_fields :
  traceOf (handleSubmit Worlds.noProps Worlds.sepoliaWallet initialState []) =
  [PreventDefault;
   ConsoleLog "Submitting proposal:" (LogData initialFormData);
   SetTimeout 1500;
   MathRandom].
Proof. reflexivity. Qed.

(** Claim C1, as the specification states it, fails: [handleChange]
    stores 45 when the user types 45 into the voting period. *)
Lemma handleChange_does_not_clamp :
  votingPeriod
    (formData (handleChange (mkChangeEvent "votingPeriod" "45") initialState))
  = Num 45 /\
  ~ inRange_1_30
      (votingPeriod
         (formData (handleChange (mkChangeEvent "votingPeriod" "45") initialState))).
Proof.
  split; [reflexivity|]. intros (z & H & Hz). cbn in H. injection H as <-. lia.
Qed.

(** An emptied input leaves [NaN] in the state. *)
Example handleChange_empty_is_NaN :
  votingPeriod
    (formData (handleChange (mkChangeEvent "votingPeriod" "") initialState))
  = NaN.
Proof. reflexivity. Qed.

Lemma assign_votingPeriod (prev : ProposalData) (value : string) :
  assign prev "votingPeriod" value =
  {| title := title prev; description := description prev;
     votingPeriod := parseInt value; proposalType := proposalType prev |}.
Proof. reflexivity. Qed.

(** Claim C1, amended.  [handleChange] does not clamp: a change of the
    votingPeriod input stores [parseInt(value)] as it is and leaves the
    other fields alone, and a change of another input leaves
    [votingPeriod] alone.  The range is enforced at submission instead:
    when [votingPeriod] is not an integer from 1 to 30 the form refuses
    to submit (the handler does not run, no state changes, no effect
    happens), so whenever submitting the form does anything the voting
    period handed to the submission is an integer from 1 to 30. *)
Theorem votingPeriod_parsed_then_validated :
  (forall e s,
      target_name e = "votingPeriod" ->
      formData (handleChange e s) =
      {| title := title (formData s);
         description := description (formData s);
         votingPeriod := parseInt (target_value e);
         proposalType := proposalType (formData s) |}) /\
  (forall e s,
      target_name e <> "votingPeriod" ->
      votingPeriod (formData (handleChange e s)) = votingPeriod (formData s)) /\
  (forall props env s t,
      ~ inRange_1_30 (votingPeriod (formData s)) ->
      form_submit props env s t = (Normal tt, s, t)) /\
  (forall props env s t,
      traceOf (form_submit props env s t) <> t ->
      inRange_1_30 (votingPeriod (formData s)) /\
      form_submit props env s t = handleSubmit props env s t).
Proof.
  split; [|split; [|split]].
  - intros [name value] s. cbn. intros ->. reflexivity.
  - intros [name value] s. cbn. intros Hn. unfold assign.
    destruct (String.eqb_spec name "votingPeriod") as [|_]; [contradiction|].
    destruct (String.eqb name "title"); [reflexivity|].
    destruct (String.eqb name "description"); [reflexivity|].
    destruct (String.eqb name "proposalType"); reflexivity.
  - intros props env s t Hn. apply form_submit_blocked.
    unfold checkValidity.
    destruct (votingPeriodValid (formData s)) eqn:Hv.
    + apply votingPeriodValid_spec in Hv. contradiction.
    + apply andb_false_r.
  - intros props env s t Ht.
    destruct (checkValidity (formData s)) eqn:Hc.
    + split; [|now apply form_submit_valid].
      apply votingPeriodValid_spec. unfold checkValidity in Hc.
      apply andb_true_iff in Hc. apply Hc.
    + rewrite (form_submit_blocked props env s t Hc) in Ht.
      contradiction Ht. reflexivity.
Qed.

Lemma votingPeriod_parsed_then_validated_witness :
  ~ inRange_1_30
      (votingPeriod
         (formData (handleChange (mkChangeEvent "votingPeriod" "45") Worlds.filled))) /\
  form_submit Worlds.noProps Worlds.sepoliaWallet
    (handleChange (mkChangeEvent "votingPeriod" "45") Worlds.filled) [] =
  (Normal tt, handleChange (mkChangeEvent "votingPeriod" "45") Worlds.filled, []).
Proof.
  assert (H : ~ inRange_1_30
                (votingPeriod
                   (formData
                      (handleChange (mkChangeEvent "votingPeriod" "45")
                         Worlds.filled)))).
  { intros (z & Hz & Hr). cbn in Hz. injection Hz as <-. lia. }
  split; [exact H|].
  exact (proj1 (proj2 (proj2 votingPeriod_parsed_then_validated))
           Worlds.noProps Worlds.sepoliaWallet _ [] H).
Defined.

(* ===================================================================== *)
(** * Further properties of web3.ts                                      *)
(* ===================================================================== *)

(** ** connectWallet *)

(** With every request granted, [connectWallet] returns the signer of
    the provider and the address that signer reports, after asking for
    the accounts, reading the network, switching to Sepolia when the
    wallet is on another chain, and only then asking for the signer. *)
Theorem connectWallet_granted {S} (env : Env) (s : S) (t : Trace) (c : Z)
    (sg : Signer) (a : string) :
  window_ethereum env = true ->
  ethereum_request env "eth_requestAccounts" [] = Normal tt ->
  provider_getNetwork env = Normal c ->
  (c <> 11155111 ->
   ethereum_request env "wallet_switchEthereumChain" [ChainIdParam "0xaa36a7"] =
     Normal tt) ->
  provider_getSigner env = Normal sg ->
  signer_getAddress env sg = Normal a ->
  Web3.connectWallet env s t =
  (Normal {| Web3.success := true; Web3.address := Some a;
             Web3.signer := Some sg; Web3.proposalId := None;
             Web3.transactionHash := None; Web3.balance := None;
             Web3.error := None |},
   s,
   (t ++ [requestAccounts; GetNetwork] ++
      (if c =? 11155111 then [] else [switchToSepolia]) ++
      [GetSigner; GetAddress sg])%list).
Proof.
  intros Hwin Hacc Hnet Hsw Hsg Ha.
  rewrite (connectWallet_present env s t Hwin).
  unfold Web3.connectWallet_try, Web3.connectWallet_catch.
  run. rewrite Hacc. run. rewrite Hnet. run.
  destruct (Z.eqb_spec c 11155111) as [->|Hc]; run.
  - rewrite Hsg. run. rewrite Ha. run. reflexivity.
  - change (toString16 11155111) with "aa36a7".
    change ("0x" ++ "aa36a7") with "0xaa36a7".
    rewrite (Hsw Hc). run. rewrite Hsg. run. rewrite Ha. run. reflexivity.
Qed.

Lemma connectWallet_granted_witness :
  provider_getNetwork Worlds.sepoliaWallet = Normal 11155111 /\
  traceOf (Web3.connectWallet Worlds.sepoliaWallet tt []) =
    [requestAccounts; GetNetwork; GetSigner; GetAddress (mkSigner 0)].
Proof.
  split; [reflexivity|].
  exact (f_equal traceOf
           (connectWallet_granted Worlds.sepoliaWallet tt [] 11155111
              (mkSigner 0) "0x663d3FC1a358548c12f635de2aaca31FC637ABC6"
              eq_refl eq_refl eq_refl (fun _ => eq_refl) eq_refl eq_refl)).
Defined.

(** When the user refuses access to the accounts, [connectWallet] stops
    there: it reports the refusal and asks the provider nothing more (no
    network query, no signer). *)
Theorem connectWallet_accounts_refused {S} (env : Env) (s : S) (t : Trace)
    (e : Thrown) :
  window_ethereum env = true ->
  ethereum_request env "eth_requestAccounts" [] = Abrupt e ->
  Web3.connectWallet env s t =
  (Normal (Web3.failure (messageOr "Failed to connect wallet" e)), s,
   (t ++ [requestAccounts; ConsoleError "Error connecting to wallet:" e])%list).
Proof.
  intros Hwin Hacc. rewrite (connectWallet_present env s t Hwin).
  unfold Web3.connectWallet_try, Web3.connectWallet_catch.
  run. rewrite Hacc. run. reflexivity.
Qed.

(** A world where the user dismisses the account prompt. *)
Lemma connectWallet_accounts_refused_witness :
  let env :=
    {| window_ethereum := true;
       ethereum_request := fun _ _ => Abrupt Worlds.userRejected;
       provider_getNetwork := Normal 11155111;
       provider_getSigner := Normal (mkSigner 0);
       signer_getAddress := fun _ => Normal "0x663d";
       contract_propose := fun _ _ _ _ _ _ => Abrupt Nullish;
       tx_wait := fun _ => Abrupt Nullish;
       contract_balanceOf := fun _ _ => Normal 0;
       Math_random_toString36 := "0" |} in
  completion (Web3.connectWallet env tt []) =
    Normal (Web3.failure "user rejected action").
Proof.
  intros env.
  exact (f_equal completion
           (connectWallet_accounts_refused env tt [] Worlds.userRejected
              eq_refl eq_refl)).
Defined.

(** When the switch to Sepolia fails for another reason than an unknown
    chain (any code but 4902, or none), the switch error itself is
    reported, and no signer is requested on the wrong network. *)
Theorem connectWallet_switch_refused {S} (env : Env) (s : S) (t : Trace)
    (c : Z) (e : Thrown) :
  window_ethereum env = true ->
  ethereum_request env "eth_requestAccounts" [] = Normal tt ->
  provider_getNetwork env = Normal c ->
  c <> 11155111 ->
  ethereum_request env "wallet_switchEthereumChain" [ChainIdParam "0xaa36a7"] =
    Abrupt e ->
  e <> Nullish ->
  thrownCode e <> Some 4902 ->
  Web3.connectWallet env s t =
  (Normal (Web3.failure (messageOr "Failed to connect wallet" e)), s,
   (t ++ [requestAccounts; GetNetwork; switchToSepolia;
          ConsoleError "Error connecting to wallet:" e])%list).
Proof.
  intros Hwin Hacc Hnet Hc Hsw Hnull Hcode.
  rewrite (connectWallet_present env s t Hwin).
  unfold Web3.connectWallet_try, Web3.connectWallet_catch.
  run. rewrite Hacc. run. rewrite Hnet. run.
  destruct (Z.eqb_spec c 11155111) as [|_]; [contradiction|]. run.
  change (toString16 11155111) with "aa36a7".
  change ("0x" ++ "aa36a7") with "0xaa36a7".
  rewrite Hsw. run.
  assert (Hno : forall code, code <> Some 4902 -> Web3.isCode code 4902 = false).
  { intros [z|] Hz; [|reflexivity]. cbn. apply Z.eqb_neq. congruence. }
  destruct e as [m code|code|]; [| |contradiction]; cbn in Hcode;
    run; rewrite (Hno code Hcode); run; reflexivity.
Qed.

(** A wallet on mainnet whose user dismisses the switch prompt. *)
Lemma connectWallet_switch_refused_witness :
  let env :=
    {| window_ethereum := true;
       ethereum_request := fun method _ =>
         if String.eqb method "wallet_switchEthereumChain"
         then Abrupt Worlds.userRejected else Normal tt;
       provider_getNetwork := Normal 1;
       provider_getSigner := Normal (mkSigner 0);
       signer_getAddress := fun _ => Normal "0x663d";
       contract_propose := fun _ _ _ _ _ _ => Abrupt Nullish;
       tx_wait := fun _ => Abrupt Nullish;
       contract_balanceOf := fun _ _ => Normal 0;
       Math_random_toString36 := "0" |} in
  completion (Web3.connectWallet env tt []) =
    Normal (Web3.failure "user rejected action") /\
  existsb (fun ef => match ef with GetSigner => true | _ => false end)
    (traceOf (Web3.connectWallet env tt [])) = false.
Proof.
  intros env.
  assert (H := connectWallet_switch_refused env tt [] 1 Worlds.userRejected
                 eq_refl eq_refl eq_refl).
  rewrite H.
  - split; reflexivity.
  - intros E; discriminate E.
  - reflexivity.
  - intros E; discriminate E.
  - intros E; discriminate E.
Defined.

Lemma connectWallet_try_shape {S} (env : Env) (s : S) (t : Trace)
    (r : Web3.Result) :
  completion (Web3.connectWallet_try env s t) = Normal r ->
  exists a sg,
    r = {| Web3.success := true; Web3.address := Some a;
           Web3.signer := Some sg; Web3.proposalId := None;
           Web3.transactionHash := None; Web3.balance := None;
           Web3.error := None |}.
Proof.
  unfold Web3.connectWallet_try. intros H.
  do 5 bind_normal H. cbn in H. injection H as <-. eauto.
Qed.

(** Whatever the world does, the object [connectWallet] returns is one
    of two shapes: [success] with an address and a signer and no error,
    or a failure with an error string and neither address nor signer. *)
Theorem connectWallet_result_shape {S} (env : Env) (s : S) (t : Trace) :
  exists r,
    completion (Web3.connectWallet env s t) = Normal r /\
    ((exists a sg,
         r = {| Web3.success := true; Web3.address := Some a;
                Web3.signer := Some sg; Web3.proposalId := None;
                Web3.transactionHash := None; Web3.balance := None;
                Web3.error := None |}) \/
     (exists msg, r = Web3.failure msg)).
Proof.
  destruct (window_ethereum env) eqn:Hwin.
  - rewrite (connectWallet_present env s t Hwin).
    destruct (catch_returns Web3.connectWallet_try Web3.connectWallet_catch
                (fun e => Web3.failure (messageOr "Failed to connect wallet" e))
                env s t) as (r & Hr & Hthrow & Hok); [reflexivity|].
    exists r. split; [exact Hr|].
    destruct (completion (Web3.connectWallet_try env s t)) as [x|e] eqn:Hc.
    + left. rewrite (Hok x eq_refl).
      exact (connectWallet_try_shape env s t x Hc).
    + right. eexists. exact (Hthrow e eq_refl).
  - exists (Web3.failure "MetaMask not installed"). split.
    + unfold Web3.connectWallet, Web3.hasEthereum. cbn. rewrite Hwin.
      reflexivity.
    + right. eexists. reflexivity.
Qed.

(** ** submitGovernanceProposal *)

(** [submitGovernanceProposal] reports success exactly when the values
    parse as ether amounts, the [propose] call is accepted and the wait
    for the transaction yields a receipt; both [proposalId] and
    [transactionHash] are then the hash of that receipt. *)
Theorem submitGovernanceProposal_success_iff {S} (sg : Signer)
    (d : Web3.GovernanceProposalData) (env : Env) (s : S) (t : Trace) :
  exists r,
    completion (Web3.submitGovernanceProposal sg d env s t) = Normal r /\
    (Web3.success r = true <->
     exists zs tx rc,
       Web3.mapThrowing Ethers.parseEther (Web3.orDefault (Web3.values d) ["0"])
         = Normal zs /\
       contract_propose env Web3.GOVERNOR_CONTRACT_ADDRESS sg
         (Web3.orDefault (Web3.targets d) [Web3.TIMELOCK_CONTRACT_ADDRESS]) zs
         (Web3.orDefault (Web3.calldatas d) ["0x"])
         (Web3.formatDescription (Web3.fields d)) = Normal tx /\
       tx_wait env tx = Normal (Some rc) /\
       Web3.proposalId r = Some (receipt_hash rc) /\
       Web3.transactionHash r = Some (receipt_hash rc)).
Proof.
  unfold Web3.submitGovernanceProposal, Web3.submitGovernanceProposal_try,
    Web3.submitGovernanceProposal_catch.
  run.
  destruct (Web3.mapThrowing Ethers.parseEther _) as [zs|e]; run.
  2:{ eexists. split; [reflexivity|]. split; [discriminate|].
      intros (? & ? & ? & [=] & _). }
  destruct (contract_propose env _ _ _ _ _ _) as [tx|e] eqn:Hp; run.
  2:{ eexists. split; [reflexivity|]. split; [discriminate|].
      intros (zs' & ? & ? & [= <-] & Hp' & _). rewrite Hp in Hp'.
      discriminate. }
  destruct (tx_wait env tx) as [[rc|]|e] eqn:Hw; run;
    (eexists; split; [reflexivity|]); split; try discriminate.
  - intros _. exists zs, tx, rc. repeat split; assumption || reflexivity.
  - reflexivity.
  - intros (zs' & tx' & rc' & [= <-] & Hp' & Hw' & _).
    rewrite Hp in Hp'. injection Hp' as <-. rewrite Hw in Hw'. discriminate.
  - intros (zs' & tx' & rc' & [= <-] & Hp' & Hw' & _).
    rewrite Hp in Hp'. injection Hp' as <-. rewrite Hw in Hw'. discriminate.
Qed.

(** A value that is not an ether amount stops the submission before any
    contract call: the parse error is reported and nothing is proposed
    or logged as sent. *)
Theorem submitGovernanceProposal_invalid_value {S} (sg : Signer)
    (d : Web3.GovernanceProposalData) (env : Env) (s : S) (t : Trace)
    (e : Thrown) :
  Web3.mapThrowing Ethers.parseEther (Web3.orDefault (Web3.values d) ["0"])
    = Abrupt e ->
  Web3.submitGovernanceProposal sg d env s t =
  (Normal (Web3.failure (messageOr "Failed to submit proposal" e)), s,
   (t ++ [ConsoleError "Error submitting proposal:" e])%list).
Proof.
  intros H.
  unfold Web3.submitGovernanceProposal, Web3.submitGovernanceProposal_try,
    Web3.submitGovernanceProposal_catch.
  run. rewrite H. run. reflexivity.
Qed.

Lemma submitGovernanceProposal_invalid_value_witness :
  Web3.submitGovernanceProposal (mkSigner 0)
    {| Web3.fields := Worlds.draft; Web3.targets := None;
       Web3.values := Some ["0"; "1 ETH"]; Web3.calldatas := None |}
    Worlds.sepoliaWallet tt [] =
  (Normal (Web3.failure "invalid FixedNumber string value"), tt,
   [ConsoleError "Error submitting proposal:" Ethers.invalidFixedNumber]).
Proof.
  exact (submitGovernanceProposal_invalid_value (mkSigner 0)
           {| Web3.fields := Worlds.draft; Web3.targets := None;
              Web3.values := Some ["0"; "1 ETH"]; Web3.calldatas := None |}
           Worlds.sepoliaWallet tt [] Ethers.invalidFixedNumber eq_refl).
Defined.

(** Arrays the caller supplies are used as they are, an empty one too
    (an empty array is not replaced by the default): the only [propose]
    call carries the given targets and calldatas and the given values
    converted to wei. *)
Theorem submitGovernanceProposal_supplied_arrays {S} (sg : Signer)
    (d : Web3.GovernanceProposalData) (env : Env) (s : S) (t : Trace)
    (ts vs cs : list string) (zs : list Z) :
  Web3.targets d = Some ts ->
  Web3.values d = Some vs ->
  Web3.calldatas d = Some cs ->
  Web3.mapThrowing Ethers.parseEther vs = Normal zs ->
  exists rest,
    traceOf (Web3.submitGovernanceProposal sg d env s t) =
    (t ++ [ConsoleLog "Submitting proposal with parameters:"
             (LogParameters ts zs cs (Web3.formatDescription (Web3.fields d)));
           Propose Web3.GOVERNOR_CONTRACT_ADDRESS sg ts zs cs
             (Web3.formatDescription (Web3.fields d))]
       ++ rest)%list /\
    existsb isPropose rest = false.
Proof.
  intros Ht Hv Hc Hz.
  unfold Web3.submitGovernanceProposal, Web3.submitGovernanceProposal_try,
    Web3.submitGovernanceProposal_catch.
  run. rewrite Ht, Hv, Hc. run. rewrite Hz. run.
  destruct (contract_propose env _ _ _ _ _ _) as [tx|e]; run.
  - destruct (tx_wait env tx) as [[rc|]|e]; run;
      eexists; split; reflexivity.
  - eexists; split; reflexivity.
Qed.

Lemma submitGovernanceProposal_supplied_arrays_witness :
  exists rest,
    traceOf
      (Web3.submitGovernanceProposal (mkSigner 0)
         {| Web3.fields := Worlds.draft; Web3.targets := Some [];
            Web3.values := Some ["1.5"]; Web3.calldatas := Some [] |}
         Worlds.sepoliaWallet tt []) =
    ([ConsoleLog "Submitting proposal with parameters:"
        (LogParameters [] [1500000000000000000] []
           (Web3.formatDescription Worlds.draft));
      Propose Web3.GOVERNOR_CONTRACT_ADDRESS (mkSigner 0) []
        [1500000000000000000] [] (Web3.formatDescription Worlds.draft)]
       ++ rest)%list /\
    existsb isPropose rest = false.
Proof.
  exact (submitGovernanceProposal_supplied_arrays (mkSigner 0)
           {| Web3.fields := Worlds.draft; Web3.targets := Some [];
              Web3.values := Some ["1.5"]; Web3.calldatas := Some [] |}
           Worlds.sepoliaWallet tt [] [] ["1.5"] [] [1500000000000000000]
           eq_refl eq_refl eq_refl eq_refl).
Defined.

(** A failure result does not mean that nothing was sent: when the
    transaction was accepted and the wait for it fails (it reverted or
    was dropped), the failure is reported after the [propose] call went
    out. *)
Theorem submitGovernanceProposal_wait_fails {S} (sg : Signer)
    (d : Web3.GovernanceProposalData) (env : Env) (s : S) (t : Trace)
    (zs : list Z) (tx : Tx) (e : Thrown) :
  let targets := Web3.orDefault (Web3.targets d) [Web3.TIMELOCK_CONTRACT_ADDRESS] in
  let calldatas := Web3.orDefault (Web3.calldatas d) ["0x"] in
  let text := Web3.formatDescription (Web3.fields d) in
  Web3.mapThrowing Ethers.parseEther (Web3.orDefault (Web3.values d) ["0"])
    = Normal zs ->
  contract_propose env Web3.GOVERNOR_CONTRACT_ADDRESS sg targets zs calldatas text
    = Normal tx ->
  tx_wait env tx = Abrupt e ->
  Web3.submitGovernanceProposal sg d env s t =
  (Normal (Web3.failure (messageOr "Failed to submit proposal" e)), s,
   (t ++ [ConsoleLog "Submitting proposal with parameters:"
            (LogParameters targets zs calldatas text);
          Propose Web3.GOVERNOR_CONTRACT_ADDRESS sg targets zs calldatas text;
          ConsoleLog "Proposal transaction sent:" (LogText (tx_hash tx));
          TxWait tx;
          ConsoleError "Error submitting proposal:" e])%list).
Proof.
  intros targets calldatas text Hz Hp Hw.
  unfold Web3.submitGovernanceProposal, Web3.submitGovernanceProposal_try,
    Web3.submitGovernanceProposal_catch.
  run. rewrite Hz. run. fold targets calldatas text. rewrite Hp. run.
  rewrite Hw. run. reflexivity.
Qed.

Lemma submitGovernanceProposal_wait_fails_witness :
  let env :=
    {| window_ethereum := true;
       ethereum_request := fun _ _ => Normal tt;
       provider_getNetwork := Normal 11155111;
       provider_getSigner := Normal (mkSigner 0);
       signer_getAddress := fun _ => Normal "0x663d";
       contract_propose := fun _ _ _ _ _ _ => Normal (mkTx "0xce72");
       tx_wait := fun _ => Abrupt (ErrorObject "transaction execution reverted" None);
       contract_balanceOf := fun _ _ => Normal 0;
       Math_random_toString36 := "0" |} in
  completion
    (Web3.submitGovernanceProposal (mkSigner 0)
       (asGovernanceProposal Worlds.draft) env tt []) =
  Normal (Web3.failure "transaction execution reverted") /\
  existsb isPropose
    (traceOf (Web3.submitGovernanceProposal (mkSigner 0)
                (asGovernanceProposal Worlds.draft) env tt [])) = true.
Proof.
  intros env.
  rewrite (submitGovernanceProposal_wait_fails (mkSigner 0)
             (asGovernanceProposal Worlds.draft) env tt [] [0] (mkTx "0xce72")
             (ErrorObject "transaction execution reverted" None)
             eq_refl eq_refl eq_refl).
  split; reflexivity.
Defined.

(** ** getVotingPower *)

(** With a provider present, [getVotingPower] makes one read-only call,
    [balanceOf(address)] on the governance token, and nothing else: when
    it answers, the result is the balance formatted in ether; when it
    fails, the failure is logged and reported.  No transaction and no
    wallet request is ever made. *)
Theorem getVotingPower_reads_balance {S} (a : string) (env : Env) (s : S)
    (t : Trace) :
  window_ethereum env = true ->
  Web3.getVotingPower a env s t =
  match contract_balanceOf env Web3.GOVERNANCE_TOKEN_ADDRESS a with
  | Normal b =>
      (Normal {| Web3.success := true; Web3.address := None;
                 Web3.signer := None; Web3.proposalId := None;
                 Web3.transactionHash := None;
                 Web3.balance := Some (Ethers.formatEther b);
                 Web3.error := None |},
       s, (t ++ [BalanceOf "0xc95B4096Be9C48A1C63c9CCa171CfC16069779D0" a])%list)
  | Abrupt e =>
      (Normal (Web3.failure (messageOr "Failed to get voting power" e)), s,
       (t ++ [BalanceOf "0xc95B4096Be9C48A1C63c9CCa171CfC16069779D0" a;
              ConsoleError "Error getting voting power:" e])%list)
  end.
Proof.
  intros Hwin.
  unfold Web3.getVotingPower, Web3.getVotingPower_try,
    Web3.getVotingPower_catch, Web3.hasEthereum.
  run. rewrite Hwin. run.
  destruct (contract_balanceOf env _ a) as [b|e]; run; reflexivity.
Qed.

Lemma getVotingPower_reads_balance_witness :
  completion (Web3.getVotingPower "0xabc" Worlds.sepoliaWallet tt []) =
  Normal {| Web3.success := true; Web3.address := None;
            Web3.signer := None; Web3.proposalId := None;
            Web3.transactionHash := None;
            Web3.balance := Some "1.5";
            Web3.error := None |}.
Proof.
  exact (f_equal completion
           (getVotingPower_reads_balance "0xabc" Worlds.sepoliaWallet tt []
              eq_refl)).
Defined.

(** Without a provider, [getVotingPower] reports 'MetaMask not
    installed' and performs no external operation. *)
Theorem getVotingPower_without_provider {S} (a : string) (env : Env) (s : S)
    (t : Trace) :
  window_ethereum env = false ->
  Web3.getVotingPower a env s t =
  (Normal (Web3.failure "MetaMask not installed"), s, t).
Proof.
  intros Hwin. unfold Web3.getVotingPower, Web3.hasEthereum.
  run. rewrite Hwin. reflexivity.
Qed.

Lemma getVotingPower_without_provider_witness :
  Web3.getVotingPower "0xabc" Worlds.noWallet tt [] =
  (Normal (Web3.failure "MetaMask not installed"), tt, []).
Proof.
  exact (getVotingPower_without_provider "0xabc" Worlds.noWallet tt [] eq_refl).
Defined.

(* ===================================================================== *)
(** * Further properties of the form                                     *)
(* ===================================================================== *)

(** ** handleChange *)

(** Changes of two different inputs commute, and of two changes of the
    same input the later one wins. *)
Theorem handleChange_fields_independent (n1 n2 v1 v2 : string) (s : State) :
  (n1 <> n2 ->
   handleChange (mkChangeEvent n1 v1) (handleChange (mkChangeEvent n2 v2) s) =
   handleChange (mkChangeEvent n2 v2) (handleChange (mkChangeEvent n1 v1) s)) /\
  (isFieldName n1 = true ->
   handleChange (mkChangeEvent n1 v1) (handleChange (mkChangeEvent n1 v2) s) =
   handleChange (mkChangeEvent n1 v1) s).
Proof.
  unfold handleChange, setFormData, assign, isFieldName. cbn. split.
  - intros Hn.
    destruct (String.eqb_spec n1 "votingPeriod"), (String.eqb_spec n2 "votingPeriod"),
      (String.eqb_spec n1 "title"), (String.eqb_spec n2 "title"),
      (String.eqb_spec n1 "description"), (String.eqb_spec n2 "description"),
      (String.eqb_spec n1 "proposalType"), (String.eqb_spec n2 "proposalType");
      subst; try discriminate; try contradiction; reflexivity.
  - intros Hf.
    destruct (String.eqb n1 "votingPeriod"); [reflexivity|].
    destruct (String.eqb n1 "title"); [reflexivity|].
    destruct (String.eqb n1 "description"); [reflexivity|].
    destruct (String.eqb n1 "proposalType"); [reflexivity|discriminate].
Qed.

Lemma handleChange_fields_independent_witness :
  formData
    (handleChange (mkChangeEvent "title" "Quorum")
       (handleChange (mkChangeEvent "votingPeriod" "14") initialState)) =
  formData
    (handleChange (mkChangeEvent "votingPeriod" "14")
       (handleChange (mkChangeEvent "title" "Quorum") initialState)).
Proof.
  refine (f_equal formData
            (proj1 (handleChange_fields_independent "title" "votingPeriod"
                      "Quorum" "14" initialState) _)).
  intros H; discriminate H.
Defined.

(** ** The voting period between the input and the state *)

(** Evaluates the digit test of one step of [parseDigits]. *)
Ltac eval_digit :=
  match goal with
  | |- context [digitValue ?c] =>
      let v := eval vm_compute in (digitValue c) in
      change (digitValue c) with v; cbn match;
      match goal with
      | |- context [?d <? 10] =>
          let b := eval vm_compute in (d <? 10) in
          change (d <? 10) with b; cbn match
      end
  end.

Lemma parseDigits_of_uint_acc (d : Decimal.uint) (acc : positive) :
  parseDigits 10 (DecimalString.NilEmpty.string_of_uint d) (Some (Z.pos acc)) =
  Some (Z.pos (Pos.of_uint_acc d acc)).
Proof.
  revert acc.
  induction d; intros acc; cbn -[Z.mul Z.add Pos.mul Pos.add];
    [reflexivity|..];
    eval_digit; rewrite <- IHd; f_equal; f_equal; lia.
Qed.

Lemma parseDigits_of_uint (d : Decimal.uint) :
  parseDigits 10 (DecimalString.NilEmpty.string_of_uint d) (Some 0) =
  Some (Z.of_N (Pos.of_uint d)).
Proof.
  induction d; cbn -[Z.mul Z.add Pos.mul Pos.add];
    [reflexivity|..]; eval_digit; [exact IHd|..];
    rewrite <- parseDigits_of_uint_acc; reflexivity.
Qed.

Lemma parseDigits_start (d : Decimal.uint) :
  d <> Decimal.Nil ->
  parseDigits 10 (DecimalString.NilEmpty.string_of_uint d) None =
  parseDigits 10 (DecimalString.NilEmpty.string_of_uint d) (Some 0).
Proof.
  destruct d; [contradiction|..]; reflexivity.
Qed.

Lemma parseInt_digits (d : Decimal.uint) :
  d <> Decimal.Nil ->
  parseInt (DecimalString.NilEmpty.string_of_uint d) =
    Num (Z.of_N (Pos.of_uint d)) /\
  parseInt (String "-" (DecimalString.NilEmpty.string_of_uint d)) =
    Num (- Z.of_N (Pos.of_uint d)).
Proof.
  intros Hd.
  assert (H : parseInt (DecimalString.NilEmpty.string_of_uint d) =
              match parseDigits 10 (DecimalString.NilEmpty.string_of_uint d) None with
              | Some v => Num (1 * v)
              | None => NaN
              end /\
              parseInt (String "-" (DecimalString.NilEmpty.string_of_uint d)) =
              match parseDigits 10 (DecimalString.NilEmpty.string_of_uint d) None with
              | Some v => Num (-1 * v)
              | None => NaN
              end).
  { destruct d as [|d|d|d|d|d|d|d|d|d|d]; [contradiction|..];
      destruct d; split; reflexivity. }
  destruct H as [H1 H2]. rewrite H1, H2.
  rewrite (parseDigits_start d Hd), parseDigits_of_uint.
  split; f_equal; lia.
Qed.

Lemma parseInt_intToString (z : Z) : parseInt (intToString z) = Num z.
Proof.
  unfold intToString. destruct z as [|p|p]; [reflexivity|..]; cbn [Z.to_int
    DecimalString.NilZero.string_of_int].
  - assert (Hn := DecimalPos.Unsigned.to_uint_nonnil p).
    unfold DecimalString.NilZero.string_of_uint.
    destruct (Pos.to_uint p) eqn:E; [contradiction|..];
      rewrite <- E in *;
      rewrite (proj1 (parseInt_digits _ Hn)), DecimalPos.Unsigned.of_to;
      reflexivity.
  - assert (Hn := DecimalPos.Unsigned.to_uint_nonnil p).
    unfold DecimalString.NilZero.string_of_uint.
    destruct (Pos.to_uint p) eqn:E; [contradiction|..];
      rewrite <- E in *;
      rewrite (proj2 (parseInt_digits _ Hn)), DecimalPos.Unsigned.of_to;
      reflexivity.
Qed.

(** The number input shows [formData.votingPeriod] and feeds what it
    shows back through [parseInt].  While the voting period is [NaN] or
    a safe integer (at most 2^53 - 1 in magnitude, where the text has
    every digit and [parseInt] is exact), a change event that carries
    the text of the current voting period leaves the whole state as it
    is.  Beyond that range the program rounds, and from 10^21 on it
    prints exponent form, which [parseInt] cuts at the first non-digit:
    those states are outside this statement. *)
Theorem handleChange_votingPeriod_round_trip (s : State) :
  isExact (votingPeriod (formData s)) ->
  handleChange
    (mkChangeEvent "votingPeriod" (numberToString (votingPeriod (formData s)))) s
  = s.
Proof.
  intros _.
  destruct s as [[ti de vp ty] sub msg wc wa sg vpow].
  unfold handleChange, setFormData. cbn.
  destruct vp as [|z]; cbn [numberToString].
  - reflexivity.
  - rewrite parseInt_intToString. reflexivity.
Qed.

Lemma handleChange_votingPeriod_round_trip_witness :
  isExact (votingPeriod (formData Worlds.connected)) /\
  handleChange (mkChangeEvent "votingPeriod" "7") Worlds.connected =
  Worlds.connected.
Proof.
  assert (H : isExact (votingPeriod (formData Worlds.connected))).
  { unfold isExact, isSafeInteger, MAX_SAFE_INTEGER. cbn. lia. }
  split; [exact H|].
  exact (handleChange_votingPeriod_round_trip Worlds.connected H).
Defined.

(** Typing the decimal text of a safe integer (at most 2^53 - 1 in
    magnitude, so that [parseInt] returns it without rounding) stores
    that integer, and the voting-period constraint of the form then
    holds exactly when it lies between 1 and 30. *)
Theorem typed_votingPeriod_valid_iff (z : Z) (s : State) :
  isSafeInteger z ->
  votingPeriod
    (formData (handleChange (mkChangeEvent "votingPeriod" (intToString z)) s))
  = Num z /\
  (votingPeriodValid
     (formData (handleChange (mkChangeEvent "votingPeriod" (intToString z)) s))
   = true <-> 1 <= z <= 30).
Proof.
  intros _.
  assert (E : votingPeriod
                (formData
                   (handleChange (mkChangeEvent "votingPeriod" (intToString z)) s))
              = Num z).
  { cbn. apply parseInt_intToString. }
  split; [exact E|].
  unfold votingPeriodValid. rewrite E.
  rewrite andb_true_iff, !Z.leb_le. reflexivity.
Qed.

Lemma typed_votingPeriod_valid_iff_witness :
  isSafeInteger 45 /\
  intToString 45 = "45" /\
  votingPeriod
    (formData (handleChange (mkChangeEvent "votingPeriod" "45") initialState))
  = Num 45.
Proof.
  assert (H : isSafeInteger 45).
  { unfold isSafeInteger, MAX_SAFE_INTEGER. lia. }
  split; [exact H|]. split; [reflexivity|].
  exact (proj1 (typed_votingPeriod_valid_iff 45 initialState H)).
Defined.

(** ** handleSubmit *)

(** Brings a final state and trace to normal form. *)
Ltac settle :=
  unfold setIsSubmitting, setFormData, setMessage, setWalletConnected,
    setWalletAddress, setSigner, setVotingPower;
  cbn -[String.append JS.substring slice0 sliceLast orElse messageOr
        Ethers.formatEther];
  rewrite <- ?app_assoc;
  cbn [app].

Lemma handleSubmit_wallet_frame (props : Props) (env : Env) (s : State)
    (t : Trace) :
  let s' := stateOf (handleSubmit props env s t) in
  walletConnected s' = walletConnected s /\
  walletAddress s' = walletAddress s /\
  signer s' = signer s /\
  votingPower s' = votingPower s /\
  message s' <> None.
Proof.
  unfold handleSubmit. run_form.
  destruct (onSubmit props) as [callback|]; run_form.
  1: destruct (callback (formData s)) as [[]|e]; run_form.
  2: { repeat split; solve [reflexivity | discriminate]. }
  all: destruct (walletConnected s) eqn:Hw; run_form.
  all: try destruct (signer s) as [sg|] eqn:Hsg; run_form.
  all: try solve [run_form; repeat split; solve [reflexivity | congruence | discriminate]].
  all: match goal with
       | |- context [resultOf ?m ?w] => destruct (resultOf m w) as [r|e]
       end; run_form.
  all: try destruct (Web3.success r); run_form.
  all: try destruct (Web3.transactionHash r); run_form.
  all: repeat split; solve [reflexivity | congruence | discriminate].
Qed.

(** Every run of [handleSubmit] completes normally whatever the world
    and the parent's callback do, ends with [isSubmitting] cleared and
    a message set, and leaves the wallet cells (connected flag, address,
    signer, voting power) exactly as they were. *)
Theorem handleSubmit_always_settles (props : Props) (env : Env) (s : State)
    (t : Trace) :
  let r := handleSubmit props env s t in
  completion r = Normal tt /\
  isSubmitting (stateOf r) = false /\
  (exists m, message (stateOf r) = Some m /\ type m <> info) /\
  walletConnected (stateOf r) = walletConnected s /\
  walletAddress (stateOf r) = walletAddress s /\
  signer (stateOf r) = signer s /\
  votingPower (stateOf r) = votingPower s.
Proof.
  intros r.
  destruct (handleSubmit_outcome props env s t) as (Hc & Hs & Hm).
  destruct (handleSubmit_wallet_frame props env s t)
    as (Hw & Ha & Hsg & Hv & _).
  fold r in Hc, Hs, Hm, Hw, Ha, Hsg, Hv.
  repeat split; try assumption.
  unfold messageType in Hm.
  destruct (message (stateOf r)) as [m|].
  - exists m. split; [reflexivity|].
    destruct Hm as [[_ Hm]|[_ Hm]]; injection Hm as Hm; rewrite Hm;
      discriminate.
  - destruct Hm as [[_ Hm]|[_ Hm]]; discriminate.
Qed.

(** Without a connected wallet, and with the parent's callback (if any)
    returning, [handleSubmit] takes the mock path only: it shows the
    mock identifier in a success message, resets the form, and performs
    no wallet request and no contract call. *)
Theorem handleSubmit_mock_path (props : Props) (env : Env) (s : State)
    (t : Trace) :
  onChainPath s = false ->
  callbackCompletes props (formData s) ->
  handleSubmit props env s t =
  (Normal tt,
   {| formData := initialFormData;
      isSubmitting := false;
      message :=
        Some {| text := "Proposal submitted (mock)! Proposal ID: " ++
                        "prop_" ++ JS.substring (Math_random_toString36 env) 2 10;
                type := success |};
      walletConnected := walletConnected s;
      walletAddress := walletAddress s;
      signer := signer s;
      votingPower := votingPower s |},
   (t ++ [PreventDefault] ++ callbackEffects props (formData s) ++
      [ConsoleLog "Submitting proposal:" (LogData (formData s));
       SetTimeout 1500; MathRandom])%list).
Proof.
  unfold onChainPath, callbackCompletes, callbackEffects, handleSubmit.
  intros Hp Hcb. run_form.
  destruct (onSubmit props) as [callback|]; [rewrite Hcb|]; run_form;
    destruct (walletConnected s) eqn:Hw;
    try destruct (signer s) eqn:Hsg; try discriminate;
    run_form; run_form; settle; rewrite ?Hw, ?Hsg; reflexivity.
Qed.

Lemma handleSubmit_mock_path_witness :
  onChainPath Worlds.filled = false /\
  formData
    (stateOf (handleSubmit Worlds.noProps Worlds.sepoliaWallet Worlds.filled []))
  = initialFormData /\
  existsb isPropose
    (traceOf (handleSubmit Worlds.noProps Worlds.sepoliaWallet Worlds.filled []))
  = false.
Proof.
  split; [reflexivity|].
  rewrite (handleSubmit_mock_path Worlds.noProps Worlds.sepoliaWallet
             Worlds.filled [] eq_refl I).
  split; reflexivity.
Defined.

(** When the parent's [onSubmit] callback throws, nothing is submitted:
    neither the mock nor the Governor is called, and the thrown error is
    shown. *)
Theorem handleSubmit_callback_throws (props : Props) (env : Env) (s : State)
    (t : Trace) (callback : ProposalData -> Completion unit) (e : Thrown) :
  onSubmit props = Some callback ->
  callback (formData s) = Abrupt e ->
  handleSubmit props env s t =
  (Normal tt,
   {| formData := formData s;
      isSubmitting := false;
      message := Some {| text := messageOr "An unexpected error occurred" e;
                         type := error |};
      walletConnected := walletConnected s;
      walletAddress := walletAddress s;
      signer := signer s;
      votingPower := votingPower s |},
   (t ++ [PreventDefault; OnSubmitProp (formData s)])%list).
Proof.
  intros Hp He. unfold handleSubmit. run_form. rewrite Hp. run_form.
  rewrite He. run_form. settle. reflexivity.
Qed.

Lemma handleSubmit_callback_throws_witness :
  traceOf
    (handleSubmit
       {| onSubmit := Some (fun _ => Abrupt (ErrorObject "not allowed" None)) |}
       Worlds.sepoliaWallet Worlds.connected []) =
  [PreventDefault; OnSubmitProp Worlds.draft].
Proof.
  exact (f_equal traceOf
           (handleSubmit_callback_throws
              {| onSubmit := Some (fun _ => Abrupt (ErrorObject "not allowed" None)) |}
              Worlds.sepoliaWallet Worlds.connected [] _
              (ErrorObject "not allowed" None) eq_refl eq_refl)).
Defined.

Lemma default_call_effects (sg : Signer) (d : ProposalData) (env : Env) :
  exists rest,
    effectsOf (Web3.submitGovernanceProposal sg (asGovernanceProposal d)) env =
    (ConsoleLog "Submitting proposal with parameters:"
       (LogParameters [Web3.TIMELOCK_CONTRACT_ADDRESS] [0] ["0x"]
          (Web3.formatDescription d))
     :: Propose Web3.GOVERNOR_CONTRACT_ADDRESS sg
          [Web3.TIMELOCK_CONTRACT_ADDRESS] [0] ["0x"] (Web3.formatDescription d)
     :: rest) /\
    existsb isPropose rest = false /\
    existsb isMockEffect rest = false.
Proof.
  unfold effectsOf, Web3.submitGovernanceProposal,
    Web3.submitGovernanceProposal_try, Web3.submitGovernanceProposal_catch.
  run. change (Ethers.parseEther "0") with (Normal (A := Z) 0). run.
  destruct (contract_propose env _ _ _ _ _ _) as [tx|e]; run.
  - destruct (tx_wait env tx) as [[rc|]|e]; run;
      eexists; repeat split; reflexivity.
  - eexists; repeat split; reflexivity.
Qed.

(** With a connected wallet, [handleSubmit] sends the form as it stands:
    after the parent's callback it makes exactly one [propose] call, run
    by the signer held in the state, with the default target, value and
    calldata and the description formatted from the current form data;
    the mock submission (its timer and random identifier) is not
    touched. *)
Theorem handleSubmit_onchain_call (props : Props) (env : Env) (s : State)
    (t : Trace) (sg : Signer) :
  walletConnected s = true ->
  signer s = Some sg ->
  callbackCompletes props (formData s) ->
  exists rest,
    traceOf (handleSubmit props env s t) =
    (t ++ [PreventDefault] ++ callbackEffects props (formData s) ++
       [ConsoleLog "Submitting proposal with parameters:"
          (LogParameters [Web3.TIMELOCK_CONTRACT_ADDRESS] [0] ["0x"]
             (Web3.formatDescription (formData s)));
        Propose Web3.GOVERNOR_CONTRACT_ADDRESS sg
          [Web3.TIMELOCK_CONTRACT_ADDRESS] [0] ["0x"]
          (Web3.formatDescription (formData s))] ++ rest)%list /\
    existsb isPropose rest = false /\
    existsb isMockEffect rest = false.
Proof.
  intros Hw Hsg Hcb.
  destruct (default_call_effects sg (formData s) env) as (rest & He & Hp & Hm).
  exists rest. split; [|split; assumption].
  unfold callbackCompletes, callbackEffects, handleSubmit in *. run_form.
  destruct (onSubmit props) as [callback|]; [rewrite Hcb|]; run_form;
    rewrite Hw, Hsg; run_form; rewrite He;
    (destruct (resultOf _ env) as [r|e]; run_form;
     [destruct (Web3.success r); run_form;
      [destruct (Web3.transactionHash r); run_form|]|]);
    settle; reflexivity.
Qed.

Lemma handleSubmit_onchain_call_witness :
  existsb isPropose
    (traceOf (handleSubmit Worlds.noProps Worlds.rejectingWallet Worlds.connected []))
  = true /\
  existsb isMockEffect
    (traceOf (handleSubmit Worlds.noProps Worlds.rejectingWallet Worlds.connected []))
  = false.
Proof.
  destruct (handleSubmit_onchain_call Worlds.noProps Worlds.rejectingWallet
              Worlds.connected [] (mkSigner 0) eq_refl eq_refl I)
    as (rest & E & Hp & Hm).
  rewrite E. cbn [app callbackEffects onSubmit Worlds.noProps existsb isPropose
                  isMockEffect orb].
  split; [reflexivity|exact Hm].
Defined.

(** ** The wallet panel: handleConnectWallet and the voting-power effect *)

(** [connectWallet] reads and writes no state of its caller either. *)
Lemma connectWallet_run {S} (env : Env) (s : S) (t : Trace) :
  Web3.connectWallet env s t =
  (resultOf Web3.connectWallet env, s,
   (t ++ effectsOf Web3.connectWallet env)%list).
Proof.
  unfold resultOf, effectsOf, completion, traceOf, Web3.connectWallet,
    Web3.connectWallet_try, Web3.connectWallet_catch, Web3.hasEthereum.
  run.
  destruct (window_ethereum env); run; [|rewrite app_nil_r; reflexivity].
  destruct (ethereum_request env "eth_requestAccounts" []) as [[]|e]; run;
    [|reflexivity].
  destruct (provider_getNetwork env) as [c|e]; run; [|reflexivity].
  destruct (c =? 11155111); run.
  - destruct (provider_getSigner env) as [sg|e]; run; [|reflexivity].
    destruct (signer_getAddress env sg) as [a|e]; run; reflexivity.
  - match goal with
    | |- context [ethereum_request env "wallet_switchEthereumChain" ?p] =>
        destruct (ethereum_request env "wallet_switchEthereumChain" p) as [[]|e]
    end; run.
    + destruct (provider_getSigner env) as [sg|e]; run; [|reflexivity].
      destruct (signer_getAddress env sg) as [a|e]; run; reflexivity.
    + destruct e as [m code|code|]; run;
        try destruct (Web3.isCode code 4902); run; reflexivity.
Qed.

Lemma connectWallet_result_cases (env : Env) :
  (exists a sg,
      resultOf Web3.connectWallet env =
      Normal {| Web3.success := true; Web3.address := Some a;
                Web3.signer := Some sg; Web3.proposalId := None;
                Web3.transactionHash := None; Web3.balance := None;
                Web3.error := None |}) \/
  (exists msg, resultOf Web3.connectWallet env = Normal (Web3.failure msg)).
Proof.
  unfold resultOf.
  destruct (window_ethereum env) eqn:Hwin.
  - rewrite (connectWallet_present env tt [] Hwin).
    destruct (catch_returns Web3.connectWallet_try Web3.connectWallet_catch
                (fun e => Web3.failure (messageOr "Failed to connect wallet" e))
                env tt []) as (r & Hr & Hthrow & Hok); [reflexivity|].
    rewrite Hr.
    destruct (completion (Web3.connectWallet_try env tt [])) as [x|e] eqn:Hc.
    + left. rewrite (Hok x eq_refl).
      destruct (connectWallet_try_shape env tt [] x Hc) as (a & sg & ->).
      eauto.
    + right. eexists. rewrite (Hthrow e eq_refl). reflexivity.
  - right. exists "MetaMask not installed".
    unfold Web3.connectWallet, Web3.hasEthereum. cbn. rewrite Hwin.
    reflexivity.
Qed.

Ltac run_panel :=
  cbn -[JS.substring Ethers.parseEther Ethers.formatEther String.append
        String.eqb Z.eqb toString16 Web3.connectWallet Web3.getVotingPower
        slice0 sliceLast orElse messageOr];
  rewrite ?connectWallet_run.

Lemma handleConnectWallet_cases (env : Env) (s : State) (t : Trace) :
  (exists a sg,
      a <> "" /\
      resultOf Web3.connectWallet env =
      Normal {| Web3.success := true; Web3.address := Some a;
                Web3.signer := Some sg; Web3.proposalId := None;
                Web3.transactionHash := None; Web3.balance := None;
                Web3.error := None |} /\
      handleConnectWallet env s t =
      (Normal tt,
       {| formData := formData s; isSubmitting := isSubmitting s;
          message :=
            Some {| text := "Connected: " ++ slice0 a 6 ++ "..." ++ sliceLast a 4;
                    type := success |};
          walletConnected := true; walletAddress := Some a;
          signer := Some sg; votingPower := votingPower s |},
       (t ++ effectsOf Web3.connectWallet env)%list)) \/
  (exists txt,
      handleConnectWallet env s t =
      (Normal tt,
       {| formData := formData s; isSubmitting := isSubmitting s;
          message := Some {| text := txt; type := error |};
          walletConnected := walletConnected s;
          walletAddress := walletAddress s;
          signer := signer s; votingPower := votingPower s |},
       (t ++ effectsOf Web3.connectWallet env)%list)).
Proof.
  unfold handleConnectWallet. run_panel.
  destruct (connectWallet_result_cases env) as [(a & sg & Hr)|(msg & Hr)];
    rewrite Hr; run_panel.
  - destruct (String.eqb_spec a "") as [->|Ha]; run_panel.
    + right. eexists. settle. reflexivity.
    + left. exists a, sg. split; [exact Ha|]. split; [reflexivity|].
      settle. reflexivity.
  - right. eexists. settle. reflexivity.
Qed.

(** A click on "Connect Wallet" never throws and never touches the form
    data, the submitting flag or the voting power.  It ends in one of
    two ways: connected, with a non-empty address, a signer and a
    "Connected: ..." message showing the first six and last four
    characters of the address; or with an error message and the wallet
    cells exactly as before. *)
Theorem handleConnectWallet_outcome (env : Env) (s : State) (t : Trace) :
  let r := handleConnectWallet env s t in
  completion r = Normal tt /\
  formData (stateOf r) = formData s /\
  isSubmitting (stateOf r) = isSubmitting s /\
  votingPower (stateOf r) = votingPower s /\
  ((exists a sg,
       a <> "" /\
       walletConnected (stateOf r) = true /\
       walletAddress (stateOf r) = Some a /\
       signer (stateOf r) = Some sg /\
       message (stateOf r) =
         Some {| text := "Connected: " ++ slice0 a 6 ++ "..." ++ sliceLast a 4;
                 type := success |}) \/
   (walletConnected (stateOf r) = walletConnected s /\
    walletAddress (stateOf r) = walletAddress s /\
    signer (stateOf r) = signer s /\
    messageType (stateOf r) = Some error)).
Proof.
  intros r. subst r.
  destruct (handleConnectWallet_cases env s t)
    as [(a & sg & Ha & _ & ->)|(txt & ->)].
  - repeat split. left. exists a, sg. repeat split. exact Ha.
  - repeat split. right. repeat split.
Qed.

(** Without a wallet extension the click only shows 'MetaMask not
    installed': no request is made and the page stays disconnected. *)
Theorem handleConnectWallet_without_provider (env : Env) (s : State)
    (t : Trace) :
  window_ethereum env = false ->
  handleConnectWallet env s t =
  (Normal tt,
   {| formData := formData s; isSubmitting := isSubmitting s;
      message := Some {| text := "MetaMask not installed"; type := error |};
      walletConnected := walletConnected s;
      walletAddress := walletAddress s;
      signer := signer s; votingPower := votingPower s |},
   t).
Proof.
  intros Hwin. unfold handleConnectWallet, Web3.connectWallet, Web3.hasEthereum.
  cbn. rewrite Hwin. reflexivity.
Qed.

Lemma handleConnectWallet_without_provider_witness :
  walletConnected (stateOf (handleConnectWallet Worlds.noWallet initialState []))
    = false /\
  traceOf (handleConnectWallet Worlds.noWallet initialState []) = [].
Proof.
  rewrite (handleConnectWallet_without_provider Worlds.noWallet initialState []
             eq_refl).
  split; reflexivity.
Defined.

Lemma append_nonempty (a b : string) : b <> "" -> a ++ b <> "".
Proof.
  intros Hb. destruct a; cbn; [exact Hb|discriminate].
Qed.

Lemma formatEther_nonempty (b : Z) : String.eqb (Ethers.formatEther b) "" = false.
Proof.
  apply String.eqb_neq. unfold Ethers.formatEther.
  apply append_nonempty, append_nonempty. discriminate.
Qed.

(** [fetchVotingPower] stores the formatted balance when the token
    contract answers, and is silent otherwise: when the call fails or no
    provider is present the state is left exactly as it was, with no
    message for the user. *)
Theorem fetchVotingPower_outcome (a : string) (env : Env) (s : State)
    (t : Trace) :
  (forall b,
      window_ethereum env = true ->
      contract_balanceOf env Web3.GOVERNANCE_TOKEN_ADDRESS a = Normal b ->
      fetchVotingPower a env s t =
      (Normal tt, setVotingPower (Some (Ethers.formatEther b)) s,
       (t ++ [BalanceOf Web3.GOVERNANCE_TOKEN_ADDRESS a])%list)) /\
  ((window_ethereum env = false \/
    exists e, contract_balanceOf env Web3.GOVERNANCE_TOKEN_ADDRESS a = Abrupt e) ->
   completion (fetchVotingPower a env s t) = Normal tt /\
   stateOf (fetchVotingPower a env s t) = s).
Proof.
  unfold fetchVotingPower, Web3.getVotingPower, Web3.getVotingPower_try,
    Web3.getVotingPower_catch, Web3.hasEthereum.
  split.
  - intros b Hwin Hb. run. rewrite Hwin. run. rewrite Hb. run.
    unfold andString, truthyString. cbn [Web3.success Web3.balance].
    rewrite formatEther_nonempty. run. reflexivity.
  - intros [Hwin|[e He]]; run.
    + rewrite Hwin. run. split; reflexivity.
    + destruct (window_ethereum env); run; [|split; reflexivity].
      rewrite He. run. split; reflexivity.
Qed.

Lemma fetchVotingPower_outcome_witness :
  votingPower
    (stateOf (fetchVotingPower "0x663d" Worlds.sepoliaWallet Worlds.connected []))
  = Some "1.5" /\
  stateOf (fetchVotingPower "0x663d" Worlds.rejectingWallet Worlds.connected [])
  = Worlds.connected.
Proof.
  split.
  - rewrite (proj1 (fetchVotingPower_outcome "0x663d" Worlds.sepoliaWallet
                      Worlds.connected [])
               (3 * 10 ^ 18 / 2) eq_refl eq_refl).
    reflexivity.
  - exact (proj2 (proj2 (fetchVotingPower_outcome "0x663d"
                            Worlds.rejectingWallet Worlds.connected [])
                    (or_intror
                       (ex_intro _ (ErrorObject "execution reverted" None)
                          eq_refl)))).
Defined.

(** ** Invariants of a page view *)

Lemma votingPowerEffect_cases (env : Env) (s : State) (t : Trace) :
  stateOf (votingPowerEffect env s t) = s \/
  (walletConnected s = true /\
   exists v, stateOf (votingPowerEffect env s t) = setVotingPower (Some v) s).
Proof.
  unfold votingPowerEffect, fetchVotingPower, andString.
  cbn -[Web3.getVotingPower].
  destruct (walletConnected s) eqn:Hw; [|left; reflexivity].
  destruct (truthyString (walletAddress s)) as [a|]; [|left; reflexivity].
  cbn -[Web3.getVotingPower].
  destruct (Web3.getVotingPower a env s t) as [[[r|e] s1] t1] eqn:Hg.
  - assert (Hs : s1 = s).
    { revert Hg. unfold Web3.getVotingPower, Web3.getVotingPower_try,
        Web3.getVotingPower_catch, Web3.hasEthereum. run.
      destruct (window_ethereum env); run; [|intros [= _ <- _]; reflexivity].
      destruct (contract_balanceOf env _ a); run;
        intros [= _ <- _]; reflexivity. }
    subst s1.
    destruct (Web3.success r); [|left; reflexivity].
    destruct (truthyString (Web3.balance r)) as [v|]; [|left; reflexivity].
    right. split; [reflexivity|]. exists v. reflexivity.
  - exfalso.
    destruct (getVotingPower_returns a env s t) as (r & Hr & _).
    rewrite Hg in Hr. discriminate.
Qed.

Lemma step_walletCoherent (s s' : State) :
  Step s s' -> walletCoherent s -> walletCoherent s'.
Proof.
  intros Hstep [Hoff Hon]. destruct Hstep.
  - (* handleChange *) split; [exact Hoff|exact Hon].
  - (* handleSubmit *)
    destruct (handleSubmit_wallet_frame props env s t)
      as (Hw & Ha & Hsg & Hv & _).
    unfold walletCoherent. rewrite Hw, Ha, Hsg, Hv. split; assumption.
  - (* handleConnectWallet *)
    destruct (handleConnectWallet_cases env s t)
      as [(a & sg & Ha & _ & ->)|(txt & ->)]; unfold walletCoherent, stateOf;
      cbn [fst snd walletConnected walletAddress signer votingPower].
    + split; [discriminate|]. intros _. split; eauto.
    + split; assumption.
  - (* the voting-power effect *)
    destruct (votingPowerEffect_cases env s t) as [->|(Hw & v & ->)].
    + split; assumption.
    + unfold walletCoherent.
      cbn [setVotingPower walletConnected walletAddress signer votingPower].
      split; [rewrite Hw; discriminate|exact Hon].
Qed.

Lemma reachable_walletCoherent (s : State) : Reachable s -> walletCoherent s.
Proof.
  induction 1 as [|s s' _ IH Hstep].
  - split; [intros _; repeat split|discriminate].
  - exact (step_walletCoherent s s' Hstep IH).
Qed.

(** In every state a page view can reach, the wallet cells agree: while
    the wallet is not connected there is no address, no signer and no
    voting power; once it is connected there is a non-empty address and
    a signer. *)
Theorem wallet_cells_coherent (s : State) :
  Reachable s ->
  (walletConnected s = false ->
   walletAddress s = None /\ signer s = None /\ votingPower s = None) /\
  (walletConnected s = true ->
   (exists a, walletAddress s = Some a /\ a <> "") /\
   (exists sg, signer s = Some sg)).
Proof.
  exact (reachable_walletCoherent s).
Qed.

(** The state after a granted connection. *)
Lemma wallet_cells_coherent_witness :
  let s1 := stateOf (handleConnectWallet Worlds.sepoliaWallet initialState []) in
  Reachable s1 /\ exists sg, signer s1 = Some sg.
Proof.
  intros s1.
  assert (R : Reachable s1).
  { exact (reach_step initialState s1 reach_initial
             (step_connect Worlds.sepoliaWallet [] initialState)). }
  split; [exact R|].
  exact (proj2 (proj2 (wallet_cells_coherent s1 R) eq_refl)).
Defined.

(** No handler disconnects the wallet: once [walletConnected] is set it
    stays set for the rest of the page view. *)
Theorem wallet_stays_connected (s s' : State) :
  Step s s' ->
  walletConnected s = true ->
  walletConnected s' = true.
Proof.
  intros Hstep Hw. destruct Hstep.
  - exact Hw.
  - destruct (handleSubmit_wallet_frame props env s t) as (E & _).
    rewrite E. exact Hw.
  - destruct (handleConnectWallet_cases env s t)
      as [(a & sg & _ & _ & ->)|(txt & ->)]; [reflexivity|exact Hw].
  - destruct (votingPowerEffect_cases env s t) as [->|(_ & v & ->)]; exact Hw.
Qed.

Lemma wallet_stays_connected_witness :
  walletConnected Worlds.connected = true /\
  walletConnected
    (stateOf (handleConnectWallet Worlds.noWallet Worlds.connected [])) = true.
Proof.
  split; [reflexivity|].
  exact (wallet_stays_connected Worlds.connected _
           (step_connect Worlds.noWallet [] Worlds.connected) eq_refl).
Defined.



(** A successful submission cannot be repeated by submitting again at
    once: after a submission of the form that ended on a success
    message, the form is empty again, and a second submit event is
    refused by the constraint validation in any world. *)
Theorem form_submit_not_repeated (props props' : Props) (env env' : Env)
    (s : State) (t : Trace) :
  let r := form_submit props env s t in
  messageType (stateOf r) = Some success ->
  form_submit props' env' (stateOf r) (traceOf r) =
  (Normal tt, stateOf r, traceOf r).
Proof.
  intros r Hm. apply form_submit_blocked. subst r.
  destruct (checkValidity (formData s)) eqn:Hv.
  - rewrite (form_submit_valid props env s t Hv) in *.
    destruct (handleSubmit_outcome props env s t) as (_ & _ & [[_ He]|[Hf _]]).
    + rewrite He in Hm. discriminate.
    + rewrite Hf. reflexivity.
  - rewrite (form_submit_blocked props env s t Hv). exact Hv.
Qed.

Lemma form_submit_not_repeated_witness :
  let r := form_submit Worlds.noProps Worlds.sepoliaWallet Worlds.filled [] in
  messageType (stateOf r) = Some success /\
  traceOf (form_submit Worlds.noProps Worlds.sepoliaWallet (stateOf r) (traceOf r))
  = traceOf r.
Proof.
  intros r. split; [reflexivity|].
  exact (f_equal traceOf
           (form_submit_not_repeated Worlds.noProps Worlds.noProps
              Worlds.sepoliaWallet Worlds.sepoliaWallet Worlds.filled []
              eq_refl)).
Defined.
